(** * One turn of the chat assistant: [packages/mastrogpt/chat/chat.py]

    A shallow embedding of the module's [chat] entry point and of its
    helpers, followed by the properties of one turn.

    - Python values are the JSON values the action receives ([pyval]);
      numbers are integers.
    - A [str] is a [string] holding its UTF-8 text; its characters are the
      groups of [chars], a leading byte with the continuation bytes after it,
      and lengths and slices count characters, not bytes.
    - Exceptions are values ([exn]); a computation yields an [outcome].
    - The socket, the process environment and the upstream provider are
      oracles of an [env]; what is done to the socket is logged in the
      [world].
    - [json.loads], [repr] of containers, [str.strip], [str.lower] and
      [int] of a string belong to the interpreter's library and are the
      fields of a [PyRuntime]; on ASCII text [str.lower] is [ascii_lower]. *)

From Stdlib Require Import String Ascii List ZArith Bool Lia DecimalString.
Import ListNotations.
Open Scope string_scope.

(** ** Values *)

#[local] Set Warnings "-register-all".

Inductive pyval : Type :=
| PNone
| PBool (b : bool)
| PInt (z : Z)
| PStr (s : string)
| PList (l : list pyval)
| PDict (d : list (string * pyval)).

Definition pydict : Type := list (string * pyval).

Definition type_name (v : pyval) : string :=
  match v with
  | PNone => "NoneType"
  | PBool _ => "bool"
  | PInt _ => "int"
  | PStr _ => "str"
  | PList _ => "list"
  | PDict _ => "dict"
  end.

(** ** Exceptions and outcomes *)

Inductive exn_class : Type :=
| RequestException   (* requests.exceptions.RequestException and subclasses *)
| OSError            (* socket errors; not a RequestException *)
| TypeError
| ValueError
| KeyError
| IndexError
| AttributeError.

Record exn : Type := Exn { exn_kind : exn_class; exn_text : string }.

Definition is_request_exception (e : exn) : bool :=
  match exn_kind e with RequestException => true | _ => false end.

Inductive outcome (A : Type) : Type :=
| Ok (a : A)
| Raise (e : exn).
Arguments Ok {A} a.
Arguments Raise {A} e.

Definition obind {A B} (o : outcome A) (k : A -> outcome B) : outcome B :=
  match o with
  | Ok a => k a
  | Raise e => Raise e
  end.

Declare Scope py_scope.
Delimit Scope py_scope with py.
Notation "x <~ c ;; k" := (obind c (fun x => k))
  (at level 61, c at next level, right associativity) : py_scope.
Open Scope py_scope.

(** ** Text *)

Definition nl : string := String (ascii_of_nat 10) "".
Definition dq : string := String (ascii_of_nat 34) "".

(** *** Characters. Python slices and counts a text by character. In the
    UTF-8 text a character is an ASCII byte alone, or a byte from 128 up
    with the continuation bytes, 128..191, that follow it. *)

Definition is_ascii_char (c : ascii) : bool := (nat_of_ascii c <? 128)%nat.

Fixpoint is_ascii (s : string) : bool :=
  match s with
  | "" => true
  | String c r => is_ascii_char c && is_ascii r
  end.

Definition is_cont (c : ascii) : bool :=
  let n := nat_of_ascii c in ((128 <=? n) && (n <? 192))%nat.

Definition starts_with_cont (s : string) : bool :=
  match s with
  | String c _ => is_cont c
  | "" => false
  end.

(** Whether the byte [c] and the text [r] after it belong to one character. *)
Definition continues (c : ascii) (r : string) : bool :=
  negb (is_ascii_char c) && starts_with_cont r.

(** The characters of a text, in order. *)
Fixpoint chars (s : string) : list string :=
  match s with
  | "" => []
  | String c r =>
      match chars r with
      | g :: gs => if continues c r then String c g :: gs
                   else String c "" :: g :: gs
      | [] => [String c ""]
      end
  end.

Definition join_all (l : list string) : string := fold_right String.append "" l.

(** [len(s)] *)
Definition str_len (s : string) : nat := List.length (chars s).

(** [s[i:i+n]] *)
Definition str_slice (i n : nat) (s : string) : string :=
  join_all (firstn n (skipn i (chars s))).

(** [s[n:]] *)
Definition str_from (n : nat) (s : string) : string :=
  join_all (skipn n (chars s)).

(** *** What [str.strip()] and [str.lower()] do on ASCII text. *)

(** The ASCII whitespace: TAB..CR, FS..US and the space. *)
Definition is_ascii_space (c : ascii) : bool :=
  let n := nat_of_ascii c in
  ((9 <=? n) && (n <=? 13) || (28 <=? n) && (n <=? 32))%nat.

Fixpoint ascii_lstrip (s : string) : string :=
  match s with
  | String c r => if is_ascii_space c then ascii_lstrip r else s
  | "" => ""
  end.

Fixpoint ascii_rstrip (s : string) : string :=
  match s with
  | "" => ""
  | String c r =>
      match ascii_rstrip r with
      | "" => if is_ascii_space c then "" else String c ""
      | r' => String c r'
      end
  end.

Definition ascii_strip (s : string) : string := ascii_rstrip (ascii_lstrip s).

Definition ascii_lower_char (c : ascii) : ascii :=
  let n := nat_of_ascii c in
  if ((65 <=? n) && (n <=? 90))%nat then ascii_of_nat (n + 32) else c.

Fixpoint ascii_lower (s : string) : string :=
  match s with
  | "" => ""
  | String c r => String (ascii_lower_char c) (ascii_lower r)
  end.

(** [s.rstrip(ch)] for a one-character [ch] *)
Fixpoint rstrip_char (ch : ascii) (s : string) : string :=
  match s with
  | "" => ""
  | String c r =>
      match rstrip_char ch r with
      | "" => if Ascii.eqb c ch then "" else String c ""
      | r' => String c r'
      end
  end.

(** [s.startswith(p)] *)
Definition startswith (s p : string) : bool := prefix p s.

(** [sep.join(l)] *)
Definition join (sep : string) (l : list string) : string := String.concat sep l.

(** [sub in s] on two strings *)
Definition str_contains (sub s : string) : bool :=
  match index 0 sub s with Some _ => true | None => false end.

(** [range(0, n, step)] *)
Definition range_step (n step : nat) : list nat :=
  map (fun k => k * step)%nat (seq 0 ((n + step - 1) / step)).

(** *** What [int(s)] does on ASCII text: optional sign, decimal digits,
    single underscores between digits; blanks and TAB..CR, but not FS..US,
    around them. *)

Definition is_digit (c : ascii) : bool :=
  let n := nat_of_ascii c in ((48 <=? n) && (n <=? 57))%nat.

Definition digit_value (c : ascii) : Z := Z.of_nat (nat_of_ascii c - 48).

Fixpoint digits_value (s : string) (acc : Z) (after_digit : bool) : option Z :=
  match s with
  | "" => if after_digit then Some acc else None
  | String c r =>
      if is_digit c then digits_value r (10 * acc + digit_value c)%Z true
      else if (Ascii.eqb c "_" && after_digit)%bool then digits_value r acc false
      else None
  end.

Definition is_c_space (c : ascii) : bool :=
  let n := nat_of_ascii c in ((9 <=? n) && (n <=? 13) || (n =? 32))%nat.

Fixpoint c_lstrip (s : string) : string :=
  match s with
  | String c r => if is_c_space c then c_lstrip r else s
  | "" => ""
  end.

Fixpoint c_rstrip (s : string) : string :=
  match s with
  | "" => ""
  | String c r =>
      match c_rstrip r with
      | "" => if is_c_space c then "" else String c ""
      | r' => String c r'
      end
  end.

Definition ascii_int (s : string) : option Z :=
  match c_rstrip (c_lstrip s) with
  | String "-" r => option_map Z.opp (digits_value r 0%Z false)
  | String "+" r => digits_value r 0%Z false
  | t => digits_value t 0%Z false
  end.

Definition str_of_int (z : Z) : string := NilZero.string_of_int (Z.to_int z).

(** ** The interpreter's library *)

Class PyRuntime : Type := {
  (** [json.loads]; [None] stands for [json.JSONDecodeError] *)
  json_loads : string -> option pyval;
  (** [repr] of a string, of a list or of a dict *)
  py_repr : pyval -> string;
  (** [s.strip()] *)
  str_strip : string -> string;
  (** [s.lower()] *)
  str_lower : string -> string;
  (** [int(s)]; [None] stands for [ValueError] *)
  str_int : string -> option Z;
  (** on ASCII text [s.strip()] removes the ASCII whitespace at both ends *)
  str_strip_ascii : forall s, is_ascii s = true -> str_strip s = ascii_strip s;
  (** on ASCII text [s.lower()] folds the letters A..Z and nothing else *)
  str_lower_ascii : forall s, is_ascii s = true -> str_lower s = ascii_lower s
}.

Section Builtins.
Context {rt : PyRuntime}.

(** [str(v)], also what an f-string puts for [{v}] *)
Definition py_str (v : pyval) : string :=
  match v with
  | PStr s => s
  | PNone => "None"
  | PBool true => "True"
  | PBool false => "False"
  | PInt z => str_of_int z
  | PList _ | PDict _ => py_repr v
  end.

End Builtins.

(** [bool(v)] *)
Definition py_truthy (v : pyval) : bool :=
  match v with
  | PNone => false
  | PBool b => b
  | PInt z => negb (z =? 0)%Z
  | PStr s => negb (s =? "")
  | PList l => match l with [] => false | _ => true end
  | PDict d => match d with [] => false | _ => true end
  end.

(** ** Dictionaries *)

Fixpoint dict_get (d : pydict) (k : string) : option pyval :=
  match d with
  | [] => None
  | (k', v) :: r => if k' =? k then Some v else dict_get r k
  end.

Definition dict_has (d : pydict) (k : string) : bool :=
  match dict_get d k with Some _ => true | None => false end.

(** [d[k] = v]: the key keeps its place, a new key goes last. *)
Fixpoint dict_set (d : pydict) (k : string) (v : pyval) : pydict :=
  match d with
  | [] => [(k, v)]
  | (k', v') :: r => if k' =? k then (k', v) :: r else (k', v') :: dict_set r k v
  end.

(** [d.get(k, default)] *)
Definition dict_get_default (d : pydict) (k : string) (default : pyval) : pyval :=
  match dict_get d k with Some v => v | None => default end.

(** ** Operations on values, with the exceptions the interpreter raises.
    The texts are CPython's; nothing below depends on them. *)

Definition is_str_key (k : string) (v : pyval) : bool :=
  match v with PStr s => s =? k | _ => false end.

(** [k in v] for a string [k] *)
Definition py_contains (k : string) (v : pyval) : outcome bool :=
  match v with
  | PDict d => Ok (dict_has d k)
  | PList l => Ok (existsb (is_str_key k) l)
  | PStr s => Ok (str_contains k s)
  | _ => Raise (Exn TypeError
                  ("argument of type '" ++ type_name v ++ "' is not iterable"))
  end.

(** [v[k]] for a string [k] *)
Definition py_getitem (v : pyval) (k : string) : outcome pyval :=
  match v with
  | PDict d =>
      match dict_get d k with
      | Some x => Ok x
      | None => Raise (Exn KeyError ("'" ++ k ++ "'"))
      end
  | PList _ => Raise (Exn TypeError "list indices must be integers or slices, not str")
  | PStr _ => Raise (Exn TypeError "string indices must be integers, not 'str'")
  | _ => Raise (Exn TypeError ("'" ++ type_name v ++ "' object is not subscriptable"))
  end.

(** [v[k] = x] for a string [k] *)
Definition py_setitem (v : pyval) (k : string) (x : pyval) : outcome pyval :=
  match v with
  | PDict d => Ok (PDict (dict_set d k x))
  | PList _ => Raise (Exn TypeError "list indices must be integers or slices, not str")
  | _ => Raise (Exn TypeError
                  ("'" ++ type_name v ++ "' object does not support item assignment"))
  end.

(** [v[0]] *)
Definition py_getitem0 (v : pyval) : outcome pyval :=
  match v with
  | PList (x :: _) => Ok x
  | PList [] => Raise (Exn IndexError "list index out of range")
  | PStr s =>
      match chars s with
      | g :: _ => Ok (PStr g)
      | [] => Raise (Exn IndexError "string index out of range")
      end
  | PDict _ => Raise (Exn KeyError "0")
  | _ => Raise (Exn TypeError ("'" ++ type_name v ++ "' object is not subscriptable"))
  end.

(** [len(v)] *)
Definition py_len (v : pyval) : outcome nat :=
  match v with
  | PList l => Ok (List.length l)
  | PDict d => Ok (List.length d)
  | PStr s => Ok (str_len s)
  | _ => Raise (Exn TypeError ("object of type '" ++ type_name v ++ "' has no len()"))
  end.

Definition no_attribute {A} (v : pyval) (name : string) : outcome A :=
  Raise (Exn AttributeError
           ("'" ++ type_name v ++ "' object has no attribute '" ++ name ++ "'")).

(** [v.get(k, default)] *)
Definition py_get (v : pyval) (k : string) (default : pyval) : outcome pyval :=
  match v with
  | PDict d => Ok (dict_get_default d k default)
  | _ => no_attribute v "get"
  end.

(** [v.copy()] *)
Definition py_copy (v : pyval) : outcome pyval :=
  match v with
  | PList l => Ok (PList l)
  | PDict d => Ok (PDict d)
  | _ => no_attribute v "copy"
  end.

(** [v.append(x)], giving the list as it is afterwards *)
Definition py_append (v x : pyval) : outcome pyval :=
  match v with
  | PList l => Ok (PList (l ++ [x]))
  | _ => no_attribute v "append"
  end.

Section Conversions.
Context {rt : PyRuntime}.

(** [v.strip()] *)
Definition py_strip (v : pyval) : outcome string :=
  match v with
  | PStr s => Ok (str_strip s)
  | _ => no_attribute v "strip"
  end.

(** [int(v)] *)
Definition py_int (v : pyval) : outcome Z :=
  match v with
  | PInt z => Ok z
  | PBool b => Ok (if b then 1 else 0)%Z
  | PStr s =>
      match str_int s with
      | Some z => Ok z
      | None => Raise (Exn ValueError
                         ("invalid literal for int() with base 10: "
                          ++ str_slice 0 200 (py_repr (PStr s))))
      end
  | _ => Raise (Exn TypeError
                  ("int() argument must be a string, a bytes-like object or a real number, not '"
                   ++ type_name v ++ "'"))
  end.

End Conversions.

(** [text += v] on a string [text] *)
Definition py_str_iadd (text : string) (v : pyval) : outcome string :=
  match v with
  | PStr s => Ok (text ++ s)
  | _ => Raise (Exn TypeError
                  ("can only concatenate str (not " ++ dq ++ type_name v ++ dq ++ ") to str"))
  end.

(** ** Configuration (lines 10-23) *)

Definition DEFAULT_MODEL : string := "openai/gpt-oss-120b:free".

Definition STATIC_MODELS : list string :=
  [ "moonshotai/kimi-k2";
    "deepseek/deepseek-chat-v3.1";
    "qwen/qwen3-coder";
    "openai/gpt-oss-120b";
    "openai/gpt-oss-20b";
    "openchat/openchat-7b";
    "openai/gpt-5";
    "mistralai/mistral-7b-instruct";
    "deepseek/deepseek-chat-v3.1:free";
    "openai/gpt-oss-120b:free" ].

Definition STREAM_ENABLED : bool := true.

(** ** The world outside the module *)

Inductive socket : Type := Socket (host : string) (port : Z).

(** What happened on the side channel, oldest first. *)
Inductive sock_event : Type :=
| Connected (host : string) (port : Z)
| Sent (payload : pyval)
| Closed.

Definition world : Type := list sock_event.

Record request : Type := Request {
  req_url : string;
  req_headers : list (string * string);
  req_json : pyval
}.

Record response : Type := Response {
  status_error : option exn;   (* what [raise_for_status()] raises *)
  iter_lines : list string;    (* the lines [iter_lines()] yields *)
  iter_error : option exn;     (* raised by [iter_lines()] after them *)
  json_body : outcome pyval    (* [response.json()] *)
}.

Inductive upstream : Type :=
| PostRaises (e : exn)
| Responds (r : response).

Record env : Type := Env {
  os_getenv : string -> option string;
  connect_error : string -> Z -> option exn;        (* [s.connect((host, port))] *)
  send_error : world -> pyval -> option exn;        (* [sock.sendall(data)] *)
  close_error : option exn;                         (* [sock.close()] *)
  http_post : request -> upstream                   (* [requests.post] *)
}.

(** ** Computations: a log of the side channel and an exception *)

Definition M (A : Type) : Type := world -> outcome A * world.

Definition ret {A} (a : A) : M A := fun w => (Ok a, w).

Definition raise {A} (e : exn) : M A := fun w => (Raise e, w).

Definition lift {A} (o : outcome A) : M A := fun w => (o, w).

Definition bind {A B} (m : M A) (k : A -> M B) : M B :=
  fun w =>
    match m w with
    | (Ok a, w') => k a w'
    | (Raise e, w') => (Raise e, w')
    end.

(** [try: body except Exception as e: handler e] *)
Definition try_except {A} (body : M A) (handler : exn -> M A) : M A :=
  fun w =>
    match body w with
    | (Ok a, w') => (Ok a, w')
    | (Raise e, w') => handler e w'
    end.

(** [try: body finally: cleanup] *)
Definition try_finally {A} (body : M A) (cleanup : M unit) : M A :=
  fun w =>
    match body w with
    | (r, w') =>
        match cleanup w' with
        | (Ok _, w'') => (r, w'')
        | (Raise e, w'') => (Raise e, w'')
        end
    end.

Notation "x <- c ;; k" := (bind c (fun x => k))
  (at level 61, c at next level, right associativity) : py_scope.
Notation "c ;;; k" := (bind c (fun _ => k))
  (at level 61, right associativity) : py_scope.

(** [for x in l: body x] *)
Fixpoint for_each {A} (l : list A) (body : A -> M unit) : M unit :=
  match l with
  | [] => ret tt
  | x :: r => body x ;;; for_each r body
  end.

(** ** The module *)

(** The dict [chat] returns: [{"output": ..., "streaming": ..., "state": ...}]. *)
Record result : Type := Result {
  output : pyval;
  streaming : bool;
  state : pyval
}.

Definition user_message (content : string) : pyval :=
  PDict [("role", PStr "user"); ("content", PStr content)].

Definition assistant_message (content : pyval) : pyval :=
  PDict [("role", PStr "assistant"); ("content", content)].

Definition state_payload_msg (state_payload : pyval) : pyval :=
  PDict [("state", state_payload)].

Definition output_msg (chunk : pyval) : pyval :=
  PDict [("output", chunk)].

Definition usage : string :=
  "Welcome to the assistant." ++ nl ++
  "Type @ to list curated models." ++ nl ++
  "Type @<prefix> to select one (default: " ++ DEFAULT_MODEL ++ ")." ++ nl.

Section Chat.
Context {rt : PyRuntime}.
Variable E : env.

(** *** Internal helpers (lines 28-41) *)

Definition _get_base_url (args : pydict) : outcome string :=
  let base :=
    dict_get_default args "OLLAMA_API_HOST"
      (PStr (match os_getenv E "OLLAMA_API_HOST" with Some h => h | None => "" end)) in
  if py_truthy base then
    match base with
    | PStr s => Ok (rstrip_char "/" s)
    | _ => no_attribute base "rstrip"
    end
  else Ok "".

Definition _get_headers (args : pydict) : list (string * string) :=
  let token :=
    dict_get_default args "OLLAMA_API_SECRET"
      (PStr (match os_getenv E "OLLAMA_API_SECRET" with Some t => t | None => "" end)) in
  let hdr := [("Content-Type", "application/json")] in
  if py_truthy token
  then (hdr ++ [("Authorization", ("Bearer " ++ py_str token)%string)])%list
  else hdr.

(** *** Socket helpers (lines 46-81) *)

Definition sock_connect (host : string) (port : Z) : M (option socket) :=
  fun w =>
    match connect_error E host port with
    | Some e => (Raise e, w)
    | None => (Ok (Some (Socket host port)), (w ++ [Connected host port])%list)
    end.

Definition sock_sendall (payload : pyval) : M unit :=
  fun w =>
    match send_error E w payload with
    | Some e => (Raise e, w)
    | None => (Ok tt, (w ++ [Sent payload])%list)
    end.

(** [sock.close()]: the descriptor is released, then an error may be reported;
    [None] has no [close]. *)
Definition sock_close (sock : option socket) : M unit :=
  match sock with
  | None => lift (no_attribute PNone "close")
  | Some _ =>
      fun w =>
        (match close_error E with Some e => Raise e | None => Ok tt end,
         (w ++ [Closed])%list)
  end.

Definition _open_socket (args : pydict) : M (option socket) :=
  host <- lift (py_strip (dict_get_default args "STREAM_HOST" (PStr ""))) ;;
  port <- lift (py_int (dict_get_default args "STREAM_PORT" (PStr "0"))) ;;
  if (host =? "") || (port =? 0)%Z then ret None
  else sock_connect host port.

Definition _close_socket (sock : option socket) : M unit :=
  try_except (sock_close sock) (fun _ => ret tt).

Definition _send (sock : option socket) (payload : pyval) : M unit :=
  match sock with
  | None => ret tt
  | Some _ => sock_sendall payload
  end.

Definition _stream_text (sock : option socket) (text : string) : M unit :=
  let chunk_size := 10%nat in
  match sock with
  | None => ret tt
  | Some _ =>
      for_each (range_step (str_len text) chunk_size)
        (fun i => _send sock (output_msg (PStr (str_slice i chunk_size text))))
  end.

(** *** Main entry point (lines 87-245) *)

(** Lines 89-98. *)
Definition load_state (args : pydict) : pyval :=
  let state_input := dict_get_default args "state" (PDict []) in
  match state_input with
  | PStr s =>
      match json_loads s with
      | Some v => v
      | None => PDict []
      end
  | PDict d => PDict d
  | _ => PDict []
  end.

(** Lines 100-104. *)
Definition ensure_field (k : string) (default : pyval) (state_payload : pyval)
  : outcome pyval :=
  present <~ py_contains k state_payload ;;
  if negb present then py_setitem state_payload k default
  else Ok state_payload.

Definition default_fields (state_payload : pyval) : outcome pyval :=
  state_payload <~ ensure_field "model" (PStr DEFAULT_MODEL) state_payload ;;
  ensure_field "history" (PList []) state_payload.

(** Line 106. *)
Definition user_input (args : pydict) : string :=
  str_strip (py_str (dict_get_default args "input" (PStr ""))).

(** The three calls that end every command (lines 126-129 and alike). *)
Definition push_and_close (sock : option socket) (state_payload : pyval)
    (text : string) : M unit :=
  if STREAM_ENABLED then
    _send sock (state_payload_msg state_payload) ;;;
    _stream_text sock text ;;;
    _close_socket sock
  else ret tt.

(** Lines 118-166. *)
Definition command_path (args : pydict) (state_payload : pyval)
    (user_inp : string) : M result :=
  sock <- (if STREAM_ENABLED then _open_socket args else ret None) ;;
  if user_inp =? "@" then
    let model_list := join nl STATIC_MODELS in
    model <- lift (py_getitem state_payload "model") ;;
    let out := "Available models:" ++ nl ++ model_list ++ nl ++ nl
               ++ "Current model: " ++ py_str model in
    push_and_close sock state_payload out ;;;
    ret (Result (PStr out) STREAM_ENABLED state_payload)
  else
    let prefix := str_lower (str_from 1 user_inp) in
    let matched_models :=
      filter (fun model => str_lower model =? prefix) STATIC_MODELS in
    if (List.length matched_models =? 0)%nat then
      model <- lift (py_getitem state_payload "model") ;;
      let out := "No model found with prefix '" ++ prefix
                 ++ "'. Current model remains: " ++ py_str model in
      push_and_close sock state_payload out ;;;
      ret (Result (PStr out) STREAM_ENABLED state_payload)
    else if (1 <? List.length matched_models)%nat then
      let out := "Multiple models match prefix '" ++ prefix ++ "':" ++ nl
                 ++ join nl matched_models in
      push_and_close sock state_payload out ;;;
      ret (Result (PStr out) STREAM_ENABLED state_payload)
    else
      match matched_models with
      | [] => raise (Exn IndexError "list index out of range")
      | m :: _ =>
          state_payload <- lift (py_setitem state_payload "model" (PStr m)) ;;
          let out := "Model updated to: " ++ m in
          push_and_close sock state_payload out ;;;
          ret (Result (PStr out) STREAM_ENABLED state_payload)
      end.

(** Lines 207-210: the content field of one decoded frame, if it has one. *)
Definition frame_content (data_obj : pyval) : outcome (option pyval) :=
  has_choices <~ py_contains "choices" data_obj ;;
  nonempty <~
    (if has_choices then
       choices <~ py_getitem data_obj "choices" ;;
       n <~ py_len choices ;;
       Ok (0 <? n)%nat
     else Ok false) ;;
  if nonempty then
    choices <~ py_getitem data_obj "choices" ;;
    first <~ py_getitem0 choices ;;
    delta <~ py_get first "delta" (PDict []) ;;
    has_content <~ py_contains "content" delta ;;
    if has_content then
      content <~ py_getitem delta "content" ;;
      Ok (Some content)
    else Ok None
  else Ok None.

(** Lines 207-212: one decoded frame. *)
Definition relay_frame (sock : option socket) (data_obj : pyval)
    (full_text : string) : M string :=
  found <- lift (frame_content data_obj) ;;
  match found with
  | Some content =>
      full_text <- lift (py_str_iadd full_text content) ;;
      _send sock (output_msg content) ;;;
      ret full_text
  | None => ret full_text
  end.

(** Lines 197-215: the loop over the lines of the response. *)
Fixpoint relay (sock : option socket) (lines : list string)
    (at_end : option exn) (full_text : string) : M string :=
  match lines with
  | [] =>
      match at_end with
      | Some e => raise e
      | None => ret full_text
      end
  | line :: rest =>
      if line =? "" then relay sock rest at_end full_text
      else if startswith line "data: " then
        let data_str := str_from 6 line in
        if data_str =? "[DONE]" then ret full_text
        else
          match json_loads data_str with
          | None => relay sock rest at_end full_text
          | Some data_obj =>
              full_text <- relay_frame sock data_obj full_text ;;
              relay sock rest at_end full_text
          end
      else relay sock rest at_end full_text
  end.

(** Lines 188-231: the body of the [try]. It gives the text and the state. *)
Definition request_body (sock : option socket) (req : request)
    (messages state_payload : pyval) : M (pyval * pyval) :=
  if STREAM_ENABLED then
    match http_post E req with
    | PostRaises e => raise e
    | Responds r =>
        match status_error r with
        | Some e => raise e
        | None =>
            full_text <- relay sock (iter_lines r) (iter_error r) "" ;;
            messages <- lift (py_append messages (assistant_message (PStr full_text))) ;;
            state_payload <- lift (py_setitem state_payload "history" messages) ;;
            ret (PStr full_text, state_payload)
        end
    end
  else
    match http_post E req with
    | PostRaises e => raise e
    | Responds r =>
        match status_error r with
        | Some e => raise e
        | None =>
            full_text <- lift (result <~ json_body r ;;
                               choices <~ py_getitem result "choices" ;;
                               first <~ py_getitem0 choices ;;
                               message <~ py_getitem first "message" ;;
                               py_getitem message "content") ;;
            messages <- lift (py_append messages (assistant_message full_text)) ;;
            state_payload <- lift (py_setitem state_payload "history" messages) ;;
            ret (full_text, state_payload)
        end
    end.

(** Lines 233-240: the two handlers. *)
Definition request_failed (sock : option socket) (state_payload : pyval)
    (e : exn) : M (pyval * pyval) :=
  if is_request_exception e then
    let full_text := "API request failed: " ++ exn_text e in
    (if STREAM_ENABLED then _stream_text sock full_text else ret tt) ;;;
    ret (PStr full_text, state_payload)
  else
    let full_text := "An error occurred: " ++ exn_text e in
    (if STREAM_ENABLED then _stream_text sock full_text else ret tt) ;;;
    ret (PStr full_text, state_payload).

(** Lines 169-182: the messages and the request. *)
Definition build_messages (state_payload : pyval) (user_inp : string)
  : outcome pyval :=
  history <~ py_getitem state_payload "history" ;;
  messages <~ py_copy history ;;
  py_append messages (user_message user_inp).

Definition build_request (args : pydict) (state_payload messages : pyval)
  : outcome request :=
  let url := "https://openrouter.ai/api/v1/chat/completions" in
  let headers := (_get_headers args
                  ++ [("HTTP-Referer", "http://devel.ops.knuth.li")]
                  ++ [("X-Title", "AI Chat")])%list in
  model <~ py_getitem state_payload "model" ;;
  Ok (Request url headers
        (PDict [("model", model); ("messages", messages); ("stream", PBool true)])).

(** Lines 187-243: the [try] statement. *)
Definition guarded_request (sock : option socket) (req : request)
    (messages state_payload : pyval) : M (pyval * pyval) :=
  try_finally
    (try_except (request_body sock req messages state_payload)
                (request_failed sock state_payload))
    (if STREAM_ENABLED then _close_socket sock else ret tt).

(** Lines 168-245. *)
Definition chat_path (args : pydict) (state_payload : pyval)
    (user_inp : string) : M result :=
  messages <- lift (build_messages state_payload user_inp) ;;
  req <- lift (build_request args state_payload messages) ;;
  sock <- (if STREAM_ENABLED then _open_socket args else ret None) ;;
  _send sock (state_payload_msg state_payload) ;;;
  r <- guarded_request sock req messages state_payload ;;
  ret (Result (fst r) STREAM_ENABLED (snd r)).

Definition chat (args : pydict) : M result :=
  state_payload <- lift (default_fields (load_state args)) ;;
  let user_inp := user_input args in
  if user_inp =? "" then
    ret (Result (PStr usage) true state_payload)
  else if startswith user_inp "@" then
    command_path args state_payload user_inp
  else
    chat_path args state_payload user_inp.

End Chat.

(** ** A runtime and some worlds to run the module in *)

(** [repr]; exact when every string inside is plain printable text without
    quotes or backslashes. *)
Fixpoint sample_repr (v : pyval) : string :=
  match v with
  | PNone => "None"
  | PBool true => "True"
  | PBool false => "False"
  | PInt z => str_of_int z
  | PStr s => "'" ++ s ++ "'"
  | PList l => "[" ++ join ", " (map sample_repr l) ++ "]"
  | PDict d =>
      "{" ++ join ", "
               (map (fun kv => "'" ++ fst kv ++ "': " ++ sample_repr (snd kv)) d)
          ++ "}"
  end.

Definition quoted (s : string) : string := dq ++ s ++ dq.

(** The text of one streamed chunk, [{"choices":[{"delta":{"content":chunk}}]}],
    and the value [json.loads] gives for it. *)
Definition delta_json (chunk : string) : string :=
  "{" ++ quoted "choices" ++ ":[{" ++ quoted "delta" ++ ":{"
      ++ quoted "content" ++ ":" ++ quoted chunk ++ "}}]}".

Definition delta_value (chunk : string) : pyval :=
  PDict [("choices", PList [PDict [("delta", PDict [("content", PStr chunk)])]])].

(** The text of a chunk that carries a role and no content,
    [{"choices":[{"delta":{"role":"assistant"}}]}]. *)
Definition role_json : string :=
  "{" ++ quoted "choices" ++ ":[{" ++ quoted "delta" ++ ":{"
      ++ quoted "role" ++ ":" ++ quoted "assistant" ++ "}}]}".

Definition role_value : pyval :=
  PDict [("choices", PList [PDict [("delta", PDict [("role", PStr "assistant")])]])].

(** [json.loads] on the texts the examples use; any other text the examples
    feed it is not JSON. *)
Definition sample_documents : list (string * pyval) :=
  [ ("[]", PList []);
    ("{}", PDict []);
    (role_json, role_value);
    (delta_json "Hel", delta_value "Hel");
    (delta_json "lo", delta_value "lo");
    (delta_json " world", delta_value " world") ].

(** *** The text functions of the library, past ASCII *)

Definition utf8 (l : list nat) : string := string_of_list_ascii (map ascii_of_nat l).

(** The characters [str.isspace] holds of past ASCII: U+0085, U+00A0, U+1680,
    U+2000..U+200A, U+2028, U+2029, U+202F, U+205F and U+3000. *)
Definition wide_spaces : list string :=
  ([utf8 [194; 133]; utf8 [194; 160]; utf8 [225; 154; 128]]
   ++ map (fun k => utf8 [226; 128; 128 + k]) (seq 0 11)
   ++ [utf8 [226; 128; 168]; utf8 [226; 128; 169]; utf8 [226; 128; 175];
       utf8 [226; 129; 159]; utf8 [227; 128; 128]])%list.

Definition is_space_char (g : string) : bool :=
  match g with
  | String c "" => is_ascii_space c
  | _ => existsb (String.eqb g) wide_spaces
  end.

Fixpoint drop_while {A} (p : A -> bool) (l : list A) : list A :=
  match l with
  | x :: r => if p x then drop_while p r else l
  | [] => []
  end.

Definition unicode_strip (s : string) : string :=
  join_all (rev (drop_while is_space_char
                   (rev (drop_while is_space_char (chars s))))).

(** [str.lower] on one character of ASCII or of Latin-1 (U+00C0..U+00DE but
    the multiplication sign), on the Kelvin sign and on the Angstrom sign;
    every other character is left as it is. *)
Definition lower_one (g : string) : string :=
  match g with
  | String c "" => String (ascii_lower_char c) ""
  | String c (String d "") =>
      let n := nat_of_ascii d in
      if ((nat_of_ascii c =? 195) && (128 <=? n) && (n <=? 158)
          && negb (n =? 151))%nat
      then String c (String (ascii_of_nat (n + 32)) "")
      else g
  | _ =>
      if g =? utf8 [226; 132; 170] then "k"
      else if g =? utf8 [226; 132; 171] then utf8 [195; 165]
      else g
  end.

(** The code point of a character. *)
Definition code_point (g : string) : N :=
  match g with
  | "" => 0%N
  | String c r =>
      let lead := N_of_ascii c in
      fold_left (fun n d => n * 64 + (N_of_ascii d - 128))%N
        (list_ascii_of_string r)
        (match String.length r with
         | O => lead
         | S O => lead - 192
         | S (S O) => lead - 224
         | _ => lead - 240
         end)%N
  end.

(** The zeros of the decimal digits past ASCII, as of Unicode 14; each is
    followed by its nine other digits. *)
Definition digit_zeros : list N :=
  [
    1632; 1776; 1984; 2406; 2534; 2662; 2790; 2918; 3046; 3174; 3302; 3430;
    3558; 3664; 3792; 3872; 4160; 4240; 6112; 6160; 6470; 6608; 6784; 6800;
    6992; 7088; 7232; 7248; 42528; 43216; 43264; 43472; 43504; 43600; 44016;
    65296; 66720; 68912; 69734; 69872; 69942; 70096; 70384; 70736; 70864;
    71248; 71360; 71472; 71904; 72016; 72784; 73040; 73120; 92768; 92864;
    93008; 120782; 120792; 120802; 120812; 120822; 123200; 123632; 125264;
    130032
  ]%N.

(** What [int] reads one character as: an ASCII character as itself, a space
    past ASCII as a blank, a decimal digit past ASCII as the ASCII digit, and
    any other character as one it rejects. *)
Definition int_one (g : string) : string :=
  match g with
  | String _ "" => g
  | _ =>
      if existsb (String.eqb g) wide_spaces then " "
      else
        match filter (fun z => (z <=? code_point g) && (code_point g <? z + 10))%N
                digit_zeros with
        | z :: _ => String (ascii_of_N (48 + (code_point g - z))) ""
        | [] => "?"
        end
  end.

(** ASCII text takes the ASCII path, as it does in CPython. *)
Definition sample_strip (s : string) : string :=
  if is_ascii s then ascii_strip s else unicode_strip s.

Definition sample_lower (s : string) : string :=
  if is_ascii s then ascii_lower s else join_all (map lower_one (chars s)).

Definition sample_int (s : string) : option Z :=
  if is_ascii s then ascii_int s
  else ascii_int (join_all (map int_one (chars s))).

Definition ascii_path {A} (s : string) (fast slow : A) (H : is_ascii s = true)
  : (if is_ascii s then fast else slow) = fast :=
  match eq_sym H in (_ = b) return ((if b then fast else slow) = fast) with
  | eq_refl => eq_refl
  end.

(** A runtime for the examples: [json.loads] by table; [strip] as the library
    has it; [int] as the library has it short of its limit on the number of
    digits; [lower] as the library has it on text made of ASCII, Latin-1, the
    two signs and characters without case. *)
Definition sample_runtime : PyRuntime :=
  {| json_loads := fun s => dict_get sample_documents s;
     py_repr := sample_repr;
     str_strip := sample_strip;
     str_lower := sample_lower;
     str_int := sample_int;
     str_strip_ascii := fun s => ascii_path s (ascii_strip s) (unicode_strip s);
     str_lower_ascii :=
       fun s => ascii_path s (ascii_lower s)
                  (join_all (map lower_one (chars s))) |}.

(** The no-break space, U+00A0, and the Kelvin sign, U+212A. *)
Definition nbsp : string := utf8 [194; 160].
Definition kelvin_sign : string := utf8 [226; 132; 170].

(** A world in which nothing on the side channel fails. *)
Definition calm_env (up : upstream) : env :=
  Env (fun _ => None) (fun _ _ => None) (fun _ _ => None) None (fun _ => up).

(** A world in which the peer refuses the connection. *)
Definition refusing_env (up : upstream) : env :=
  Env (fun _ => None)
      (fun _ _ => Some (Exn OSError "[Errno 111] Connection refused"))
      (fun _ _ => None) None (fun _ => up).

(** A world in which the peer accepts the connection and the [n] first
    writes, and resets it afterwards. *)
Definition count_sent (w : world) : nat :=
  List.length (filter (fun ev => match ev with Sent _ => true | _ => false end) w).

Definition resetting_env (n : nat) (up : upstream) : env :=
  Env (fun _ => None) (fun _ _ => None)
      (fun w _ => if (count_sent w <? n)%nat then None
                  else Some (Exn OSError "[Errno 104] Connection reset by peer"))
      None (fun _ => up).

Definition hello_stream : upstream :=
  Responds (Response None
     [ "data: " ++ role_json; "";
       "data: " ++ delta_json "Hel";
       "data: " ++ delta_json "lo";
       "data: {broken";
       ": keep-alive";
       "data: " ++ delta_json " world";
       "data: [DONE]" ]
     None (Raise (Exn RequestException "Expecting value"))).

Definition silent_stream : upstream :=
  Responds (Response None
     [ "data: " ++ role_json; ""; "data: [DONE]" ]
     None (Raise (Exn RequestException "Expecting value"))).

Definition unreachable_upstream : upstream :=
  PostRaises (Exn RequestException "Connection aborted.").

Definition side_channel_args (input : string) : pydict :=
  [("input", PStr input); ("STREAM_HOST", PStr "localhost"); ("STREAM_PORT", PStr "9000")].

Definition fresh_state : pyval :=
  PDict [("model", PStr DEFAULT_MODEL); ("history", PList [])].

(** The text of an event that pushes [{"output": chunk}]. *)
Definition chunk_of (ev : sock_event) : list string :=
  match ev with
  | Sent (PDict [(k, PStr chunk)]) => if k =? "output" then [chunk] else []
  | _ => []
  end.

(** The texts pushed as [{"output": chunk}], in the order of the log. *)
Definition pushed_chunks (w : world) : list string := flat_map chunk_of w.

(** Whether a socket connected in the log is still open at its end. *)
Fixpoint socket_open (w : world) (opened : bool) : bool :=
  match w with
  | [] => opened
  | Connected _ _ :: r => socket_open r true
  | Closed :: r => socket_open r false
  | Sent _ :: r => socket_open r opened
  end.

(** No write on the side channel ever fails. *)
Definition sends_never_fail (E : env) : Prop :=
  forall (w : world) (payload : pyval), send_error E w payload = None.

(** No connection is ever refused. *)
Definition connects_never_fail (E : env) : Prop :=
  forall (host : string) (port : Z), connect_error E host port = None.

(** The text of line 138. *)
Definition no_match_text {rt : PyRuntime} (text : string) (model : pyval)
  : string :=
  "No model found with prefix '" ++ str_lower text
  ++ "'. Current model remains: " ++ py_str model.


(** What the loop of lines 197-215 makes of one line. *)
Inductive line_event : Type :=
| Ignored                    (* blank, unmarked, not JSON, or without content *)
| Done                       (* the [[DONE]] sentinel *)
| Delta (content : pyval)    (* a content field *)
| Broken (e : exn).          (* a frame on which the lookups raise *)

Definition decode_line {rt : PyRuntime} (line : string) : line_event :=
  if line =? "" then Ignored
  else if startswith line "data: " then
    let data_str := str_from 6 line in
    if data_str =? "[DONE]" then Done
    else
      match json_loads data_str with
      | None => Ignored
      | Some data_obj =>
          match frame_content data_obj with
          | Ok None => Ignored
          | Ok (Some content) => Delta content
          | Raise e => Broken e
          end
      end
  else Ignored.

(** A body without any content delta before the sentinel, or before its
    end when it ends without an error. *)
Fixpoint silent_body {rt : PyRuntime} (lines : list string)
    (at_end : option exn) : bool :=
  match lines with
  | [] => match at_end with None => true | Some _ => false end
  | line :: rest =>
      match decode_line line with
      | Ignored => silent_body rest at_end
      | Done => true
      | _ => false
      end
  end.

(** The turn is on the chat path and has come to the [try] of line 187:
    the messages and the request are built, the socket is [sock] and the
    state has been pushed to it, the log being [w2]. *)
Definition request_issued {rt : PyRuntime} (E : env) (args : pydict) (w : world)
    (sp messages : pyval) (req : request) (sock : option socket) (w2 : world)
  : Prop :=
  default_fields (load_state args) = Ok sp /\
  user_input args <> "" /\
  startswith (user_input args) "@" = false /\
  build_messages sp (user_input args) = Ok messages /\
  build_request E args sp messages = Ok req /\
  exists w1, _open_socket E args w = (Ok sock, w1) /\
             _send E sock (state_payload_msg sp) w1 = (Ok tt, w2).

(** The request fails: [requests.post] raises [e] (a network error), or the
    response has a status on which [raise_for_status()] raises [e]. *)
Definition upstream_fails (E : env) (req : request) (e : exn) : Prop :=
  http_post E req = PostRaises e \/
  exists r, http_post E req = Responds r /\ status_error r = Some e.

(** The text of lines 234 and 238. *)
Definition failure_text (e : exn) : string :=
  if is_request_exception e then "API request failed: " ++ exn_text e
  else "An error occurred: " ++ exn_text e.

(** [h'] is [h], or the list [h] with messages added at its end. *)
Definition history_extends (h h' : pyval) : Prop :=
  h' = h \/ exists l extra, h = PList l /\ h' = PList (l ++ extra).

(** The texts of a list put end to end. *)
(** Two computations that end alike, whatever the logs they start from. *)
Definition same_value {A} (m1 m2 : M A) : Prop :=
  forall w1 w2 : world, fst (m1 w1) = fst (m2 w2).

(** The pieces of a turn whose input is [hi], with the side channel of
    [side_channel_args] and a fresh state. *)
Definition localhost : socket := Socket "localhost" 9000.

Definition hi_messages : pyval := PList [user_message "hi"].

Definition hi_request : request :=
  Request "https://openrouter.ai/api/v1/chat/completions"
    [("Content-Type", "application/json");
     ("HTTP-Referer", "http://devel.ops.knuth.li");
     ("X-Title", "AI Chat")]
    (PDict [("model", PStr DEFAULT_MODEL); ("messages", hi_messages);
            ("stream", PBool true)]).

Definition hi_log : world :=
  [Connected "localhost" 9000; Sent (state_payload_msg fresh_state)].

Definition replied_state (reply : string) : pyval :=
  PDict [("model", PStr DEFAULT_MODEL);
         ("history", PList [user_message "hi"; assistant_message (PStr reply)])].

Definition connection_refused : exn := Exn OSError "[Errno 111] Connection refused".
Definition connection_reset : exn := Exn OSError "[Errno 104] Connection reset by peer".

(** The last character of a text, if it has one. *)
Fixpoint last_char (s : string) : option ascii :=
  match s with
  | "" => None
  | String c "" => Some c
  | String _ r => last_char r
  end.

(** [n] times the character [ch]. *)
Fixpoint repeat_char (ch : ascii) (n : nat) : string :=
  match n with
  | O => ""
  | S k => String ch (repeat_char ch k)
  end.

(** The events of [_stream_text] on an open socket when every write goes
    through: one push for each slice. *)
Definition slice_events (text : string) : world :=
  map (fun i => Sent (output_msg (PStr (str_slice i 10 text))))
      (range_step (str_len text) 10).

(** The text of line 124. *)
Definition listing_text {rt : PyRuntime} (model : pyval) : string :=
  "Available models:" ++ nl ++ join nl STATIC_MODELS ++ nl ++ nl
  ++ "Current model: " ++ py_str model.

(** The catalog entries a selection text matches (line 135). *)
Definition matching_models {rt : PyRuntime} (text : string) : list string :=
  filter (fun model => str_lower model =? str_lower text) STATIC_MODELS.

Definition is_sent (ev : sock_event) : bool :=
  match ev with Sent _ => true | _ => false end.

Definition is_ok {A} (o : outcome A) : bool :=
  match o with Ok _ => true | Raise _ => false end.

(** A computation that only writes on [sock]: whatever its outcome the log
    gains writes and nothing else, and without a socket it gains nothing. *)
Definition only_writes {A} (sock : option socket) (m : M A) : Prop :=
  forall w o w', m w = (o, w') ->
    exists sent, w' = (w ++ sent)%list /\ forallb is_sent sent = true /\
                 (sock = None -> sent = []).

(** What is done on a socket once it is there: writes, then the close; the
    close may only be missing when the computation raised. Without a socket
    nothing is done. *)
Definition channel_use (sock : option socket) (returned : bool) (evs : world)
  : Prop :=
  match sock with
  | None => evs = []
  | Some _ =>
      exists sent closed,
        evs = (sent ++ closed)%list /\ forallb is_sent sent = true /\
        (closed = [Closed] \/ (returned = false /\ closed = []))
  end.

Definition uses_channel {A} (sock : option socket) (m : M A) : Prop :=
  forall w o w', m w = (o, w') ->
    exists evs, w' = (w ++ evs)%list /\ channel_use sock (is_ok o) evs.

(** The text of a chunk whose content is null,
    [{"choices":[{"delta":{"content":null}}]}], and its value. *)
Definition null_json : string :=
  "{" ++ quoted "choices" ++ ":[{" ++ quoted "delta" ++ ":{"
      ++ quoted "content" ++ ":null}}]}".

Definition null_value : pyval :=
  PDict [("choices", PList [PDict [("delta", PDict [("content", PNone)])]])].

(** [sample_runtime] with that text added. *)
Definition wider_runtime : PyRuntime :=
  {| json_loads := fun s => dict_get ((null_json, null_value) :: sample_documents) s;
     py_repr := sample_repr;
     str_strip := sample_strip;
     str_lower := sample_lower;
     str_int := sample_int;
     str_strip_ascii := str_strip_ascii (PyRuntime := sample_runtime);
     str_lower_ascii := str_lower_ascii (PyRuntime := sample_runtime) |}.

(** A reply that breaks after its first chunk. *)
Definition broken_stream : upstream :=
  Responds (Response None [ "data: " ++ delta_json "Hel" ]
              (Some (Exn RequestException "Connection broken"))
              (Raise (Exn RequestException "Expecting value"))).

(** * Properties *)

(** ** Dictionaries and items *)

Lemma dict_get_set_same (d : pydict) (k : string) (v : pyval) :
  dict_get (dict_set d k v) k = Some v.
Proof.
  induction d as [|[k' v'] r IH]; simpl.
  - now rewrite String.eqb_refl.
  - destruct (k' =? k) eqn:Hk; simpl; rewrite Hk; auto.
Qed.

Lemma dict_get_set_other (d : pydict) (k k' : string) (v : pyval) :
  k <> k' -> dict_get (dict_set d k v) k' = dict_get d k'.
Proof.
  intros Hne. induction d as [|[k0 v0] r IH]; simpl.
  - destruct (String.eqb_spec k k'); [contradiction | reflexivity].
  - destruct (String.eqb_spec k0 k) as [->|Hk0]; simpl.
    + destruct (String.eqb_spec k k'); [contradiction | reflexivity].
    + now rewrite IH.
Qed.

Lemma setitem_is_dict (s s' : pyval) (k : string) (v : pyval) :
  py_setitem s k v = Ok s' ->
  exists d, s = PDict d /\ s' = PDict (dict_set d k v).
Proof.
  destruct s; simpl; intros H; try discriminate.
  inversion H; subst. eauto.
Qed.

Lemma getitem_after_setitem (s s' : pyval) (k : string) (v : pyval) :
  py_setitem s k v = Ok s' -> py_getitem s' k = Ok v.
Proof.
  intros H. apply setitem_is_dict in H as (d & -> & ->).
  simpl. now rewrite dict_get_set_same.
Qed.

Lemma getitem_after_setitem_other (s s' : pyval) (k k' : string) (v : pyval) :
  py_setitem s k v = Ok s' -> k <> k' -> py_getitem s' k' = py_getitem s k'.
Proof.
  intros H Hne. apply setitem_is_dict in H as (d & -> & ->).
  simpl. now rewrite dict_get_set_other.
Qed.

Lemma getitem_is_dict (s : pyval) (k : string) (v : pyval) :
  py_getitem s k = Ok v -> exists d, s = PDict d /\ dict_get d k = Some v.
Proof.
  destruct s; simpl; intros H; try discriminate.
  exists d. split; [reflexivity|].
  destruct (dict_get d k); now inversion H.
Qed.

(** ** Defaulting of the state (lines 100-104) *)

Lemma ensure_field_cases (k : string) (v s s' : pyval) :
  ensure_field k v s = Ok s' ->
  (py_contains k s = Ok true /\ s' = s) \/
  (py_contains k s = Ok false /\ py_setitem s k v = Ok s').
Proof.
  unfold ensure_field.
  destruct (py_contains k s) as [[|]|e] eqn:Hc; simpl; intros H.
  - left. now inversion H.
  - right. auto.
  - discriminate.
Qed.

Lemma ensure_field_keeps (k : string) (v s s' : pyval) :
  ensure_field k v s = Ok s' ->
  forall k' x, py_getitem s k' = Ok x -> py_getitem s' k' = Ok x.
Proof.
  intros H k' x Hx.
  destruct (ensure_field_cases _ _ _ _ H) as [[_ ->]|[Hc Hs]]; [assumption|].
  rewrite (getitem_after_setitem_other _ _ _ k' _ Hs); [assumption|].
  intros <-. apply getitem_is_dict in Hx as (d & -> & Hd).
  simpl in Hc. unfold dict_has in Hc. rewrite Hd in Hc. discriminate.
Qed.

Lemma ensure_field_elsewhere (k : string) (v s s' : pyval) :
  ensure_field k v s = Ok s' ->
  forall k', k <> k' -> py_getitem s' k' = py_getitem s k'.
Proof.
  intros H k' Hne.
  destruct (ensure_field_cases _ _ _ _ H) as [[_ ->]|[_ Hs]]; [reflexivity|].
  exact (getitem_after_setitem_other _ _ _ _ _ Hs Hne).
Qed.

Lemma ensure_field_absent (k : string) (v s s' : pyval) :
  ensure_field k v s = Ok s' ->
  py_contains k s = Ok false -> py_getitem s' k = Ok v.
Proof.
  intros H Hc.
  destruct (ensure_field_cases _ _ _ _ H) as [[Hc' _]|[_ Hs]].
  - rewrite Hc in Hc'. discriminate.
  - exact (getitem_after_setitem _ _ _ _ Hs).
Qed.

Lemma default_fields_steps (s sp : pyval) :
  default_fields s = Ok sp ->
  exists s1, ensure_field "model" (PStr DEFAULT_MODEL) s = Ok s1 /\
             ensure_field "history" (PList []) s1 = Ok sp.
Proof.
  unfold default_fields.
  destruct (ensure_field "model" (PStr DEFAULT_MODEL) s) as [s1|e] eqn:H1; simpl;
    intros H; [eauto | discriminate].
Qed.

Lemma default_fields_keeps (s sp : pyval) :
  default_fields s = Ok sp ->
  forall k x, py_getitem s k = Ok x -> py_getitem sp k = Ok x.
Proof.
  intros H k x Hx. apply default_fields_steps in H as (s1 & H1 & H2).
  eapply ensure_field_keeps; [exact H2|].
  eapply ensure_field_keeps; eassumption.
Qed.

Lemma default_fields_elsewhere (s sp : pyval) :
  default_fields s = Ok sp ->
  forall k, k <> "model" -> k <> "history" -> py_getitem sp k = py_getitem s k.
Proof.
  intros H k Hm Hh. apply default_fields_steps in H as (s1 & H1 & H2).
  rewrite (ensure_field_elsewhere _ _ _ _ H2 k) by congruence.
  apply (ensure_field_elsewhere _ _ _ _ H1 k). congruence.
Qed.

Lemma default_fields_model (s sp : pyval) :
  default_fields s = Ok sp ->
  py_contains "model" s = Ok false ->
  py_getitem sp "model" = Ok (PStr DEFAULT_MODEL).
Proof.
  intros H Hc. apply default_fields_steps in H as (s1 & H1 & H2).
  eapply ensure_field_keeps; [exact H2|].
  eapply ensure_field_absent; eassumption.
Qed.

Lemma default_fields_history (s sp : pyval) :
  default_fields s = Ok sp ->
  py_contains "history" s = Ok false ->
  py_getitem sp "history" = Ok (PList []).
Proof.
  intros H Hc. apply default_fields_steps in H as (s1 & H1 & H2).
  eapply ensure_field_absent; [exact H2|].
  destruct (ensure_field_cases _ _ _ _ H1) as [[_ ->]|[_ Hs]]; [assumption|].
  apply setitem_is_dict in Hs as (d & -> & ->).
  simpl in *. unfold dict_has in *.
  rewrite dict_get_set_other by discriminate. assumption.
Qed.

(** A dict always passes the defaulting, and stays a dict. *)
Lemma default_fields_dict (d : pydict) :
  exists d', default_fields (PDict d) = Ok (PDict d').
Proof.
  unfold default_fields, ensure_field. simpl.
  destruct (dict_has d "model"); simpl.
  - destruct (dict_has d "history"); simpl; eauto.
  - destruct (dict_has (dict_set d "model" (PStr DEFAULT_MODEL)) "history");
      simpl; eauto.
Qed.

(** ** Characters *)

Lemma chars_ascii (c : ascii) (r : string) :
  is_ascii_char c = true -> chars (String c r) = String c "" :: chars r.
Proof.
  intros Hc. simpl. unfold continues. rewrite Hc. simpl.
  now destruct (chars r).
Qed.

Lemma join_all_chars (s : string) : join_all (chars s) = s.
Proof.
  induction s as [|c r IH]; [reflexivity|]. simpl.
  destruct (chars r) as [|g gs].
  - simpl in IH. subst r. reflexivity.
  - destruct (continues c r); simpl in *; now rewrite IH.
Qed.

Lemma str_from_after_ascii (c : ascii) (r : string) :
  is_ascii_char c = true -> str_from 1 (String c r) = r.
Proof.
  intros Hc. unfold str_from. rewrite chars_ascii by assumption.
  simpl skipn. apply join_all_chars.
Qed.

Lemma sigil_then_text (text : string) :
  startswith ("@" ++ text) "@" = true /\ str_from 1 ("@" ++ text) = text /\
  (text <> "" -> (("@" ++ text) =? "@") = false /\ "@" ++ text <> "").
Proof.
  split; [|split].
  - unfold startswith. simpl. destruct text; reflexivity.
  - now apply (str_from_after_ascii "@" text).
  - intros Hne. split; [|discriminate].
    destruct (String.eqb_spec ("@" ++ text) "@") as [Heq|]; [|reflexivity].
    simpl in Heq. inversion Heq. contradiction.
Qed.

Lemma catalog_is_ascii : forallb is_ascii STATIC_MODELS = true.
Proof. reflexivity. Qed.

Lemma catalog_entry_is_lower {rt : PyRuntime} (m : string) :
  In m STATIC_MODELS -> str_lower m = m.
Proof.
  intros Hin.
  assert (Hascii : is_ascii m = true).
  { pose proof catalog_is_ascii as Hall. rewrite forallb_forall in Hall. auto. }
  rewrite (str_lower_ascii m Hascii).
  simpl in Hin. intuition (subst; reflexivity).
Qed.

Lemma catalog_is_lower_case {rt : PyRuntime} :
  map str_lower STATIC_MODELS = STATIC_MODELS.
Proof.
  rewrite <- (map_id STATIC_MODELS) at 2. apply map_ext_in.
  intros m Hin. now apply catalog_entry_is_lower.
Qed.

Lemma catalog_has_no_duplicates : NoDup STATIC_MODELS.
Proof.
  unfold STATIC_MODELS.
  repeat (constructor; [simpl; intuition discriminate|]). constructor.
Qed.

Lemma catalog_entries_not_empty : forall m, In m STATIC_MODELS -> m <> "".
Proof. intros m Hin. simpl in Hin. intuition (subst; discriminate). Qed.

Lemma filter_key_at_most_one {A} (f : A -> string) (x : string) (l : list A) :
  NoDup (map f l) ->
  filter (fun a => f a =? x) l = [] \/ exists a, filter (fun a => f a =? x) l = [a].
Proof.
  induction l as [|a r IH]; simpl; intros Hnd; [now left|].
  inversion Hnd as [|? ? Hnotin Hnd']; subst.
  destruct (String.eqb_spec (f a) x) as [Hax|Hax].
  - right. exists a. f_equal.
    assert (Hnone : forall b, In b r -> (f b =? x) = false).
    { intros b Hb. destruct (String.eqb_spec (f b) x) as [Hbx|]; [|reflexivity].
      exfalso. apply Hnotin. rewrite Hax, <- Hbx. now apply in_map. }
    clear -Hnone. induction r as [|b r IH]; simpl; [reflexivity|].
    rewrite (Hnone b) by now left. apply IH. intros c Hc. apply Hnone. now right.
  - now apply IH.
Qed.

Lemma matches_at_most_one {rt : PyRuntime} (text : string) :
  let matched :=
    filter (fun model => str_lower model =? str_lower text) STATIC_MODELS in
  matched = [] \/ exists m, matched = [m].
Proof.
  apply (filter_key_at_most_one str_lower (str_lower text) STATIC_MODELS).
  rewrite catalog_is_lower_case. apply catalog_has_no_duplicates.
Qed.


Lemma dict_state_has_fields (d : pydict) (sp : pyval) :
  default_fields (PDict d) = Ok sp ->
  exists d' model history,
    sp = PDict d' /\ dict_get d' "model" = Some model /\
    dict_get d' "history" = Some history.
Proof.
  intros Hsp. destruct (default_fields_dict d) as (d' & Hd').
  rewrite Hd' in Hsp. inversion Hsp; subst sp. clear Hsp.
  assert (Hget : forall k, k = "model" \/ k = "history" ->
                 exists v, py_getitem (PDict d') k = Ok v).
  { intros k Hk. destruct (py_contains k (PDict d)) as [[|]|e] eqn:Hc.
    - simpl in Hc. unfold dict_has in Hc.
      destruct (dict_get d k) as [v|] eqn:Hv; [|discriminate].
      exists v. apply (default_fields_keeps _ _ Hd'). simpl. now rewrite Hv.
    - destruct Hk as [-> | ->]; eexists.
      + exact (default_fields_model _ _ Hd' Hc).
      + exact (default_fields_history _ _ Hd' Hc).
    - discriminate. }
  destruct (Hget "model") as (model & Hm); [now left|].
  destruct (Hget "history") as (history & Hh); [now right|].
  apply getitem_is_dict in Hm as (? & Heq & Hm). inversion Heq; subst.
  apply getitem_is_dict in Hh as (? & Heq' & Hh). inversion Heq'; subst.
  eauto 6.
Qed.


(** ** Concatenation *)

Lemma append_empty_r (s : string) : s ++ "" = s.
Proof. induction s as [|c s IH]; simpl; [reflexivity | now rewrite IH]. Qed.

Lemma append_assoc (a b c : string) : (a ++ b) ++ c = a ++ (b ++ c).
Proof. induction a as [|x a IH]; simpl; [reflexivity | now rewrite IH]. Qed.

Lemma join_all_app (a b : list string) :
  join_all (a ++ b) = join_all a ++ join_all b.
Proof.
  induction a as [|x a IH]; simpl; [reflexivity|].
  now rewrite IH, append_assoc.
Qed.

Lemma pushed_chunks_app (a b : world) :
  pushed_chunks (a ++ b)%list = (pushed_chunks a ++ pushed_chunks b)%list.
Proof. apply flat_map_app. Qed.

Lemma state_push_is_no_chunk (host : string) (port : Z) (sp : pyval) :
  pushed_chunks [Connected host port; Sent (state_payload_msg sp)] = [].
Proof. destruct sp; reflexivity. Qed.

(** ** Messages *)

Lemma build_messages_list (sp messages : pyval) (u : string) :
  build_messages sp u = Ok messages ->
  exists hist, py_getitem sp "history" = Ok (PList hist) /\
               messages = PList (hist ++ [user_message u]).
Proof.
  unfold build_messages. destruct (py_getitem sp "history") as [h|e]; simpl;
    [|discriminate].
  destruct h; simpl; try discriminate.
  intros H. inversion H. eauto.
Qed.

Section Turn.
Context {rt : PyRuntime}.
Variable E : env.

(** ** The three paths of [chat] *)

Lemma chat_empty (args : pydict) (sp : pyval) (w : world) :
  default_fields (load_state args) = Ok sp ->
  user_input args = "" ->
  chat E args w = (Ok (Result (PStr usage) true sp), w).
Proof.
  intros Hsp Hin. unfold chat, bind, lift. rewrite Hsp, Hin. reflexivity.
Qed.

Lemma chat_command (args : pydict) (sp : pyval) (w : world) :
  default_fields (load_state args) = Ok sp ->
  user_input args <> "" ->
  startswith (user_input args) "@" = true ->
  chat E args w = command_path E args sp (user_input args) w.
Proof.
  intros Hsp Hin Hat. unfold chat, bind, lift. rewrite Hsp.
  destruct (String.eqb_spec (user_input args) ""); [contradiction|].
  now rewrite Hat.
Qed.

Lemma chat_chat (args : pydict) (sp : pyval) (w : world) :
  default_fields (load_state args) = Ok sp ->
  user_input args <> "" ->
  startswith (user_input args) "@" = false ->
  chat E args w = chat_path E args sp (user_input args) w.
Proof.
  intros Hsp Hin Hat. unfold chat, bind, lift. rewrite Hsp.
  destruct (String.eqb_spec (user_input args) ""); [contradiction|].
  now rewrite Hat.
Qed.

Lemma chat_raises_on_bad_state (args : pydict) (e : exn) (w : world) :
  default_fields (load_state args) = Raise e ->
  chat E args w = (Raise e, w).
Proof.
  intros H. unfold chat, bind, lift. now rewrite H.
Qed.

(** C6, which the code breaks on some states. When the trimmed input is
    empty, [chat] ends as the defaulting of lines 100-104 ends. If the
    defaulting passes, [chat] returns the usage banner with the streaming flag
    set and the state after the defaulting: every field the caller gave keeps
    its value, an absent model or history gets its default, nothing else is
    touched. If the defaulting raises, [chat] raises the same exception and
    returns nothing. A state that is a dict passes; a state text that decodes
    to a list without the word model in it raises, at line 102. Either way
    the log of the side channel is left as it was: no socket is opened or
    written. *)
Theorem C6_blank_input_banner_or_raise (args : pydict) (w : world) :
  user_input args = "" ->
  match default_fields (load_state args) with
  | Ok sp =>
      chat E args w = (Ok (Result (PStr usage) true sp), w)
      /\ (forall k v, py_getitem (load_state args) k = Ok v ->
                      py_getitem sp k = Ok v)
      /\ (forall k, k <> "model" -> k <> "history" ->
                    py_getitem sp k = py_getitem (load_state args) k)
      /\ (py_contains "model" (load_state args) = Ok false ->
          py_getitem sp "model" = Ok (PStr DEFAULT_MODEL))
      /\ (py_contains "history" (load_state args) = Ok false ->
          py_getitem sp "history" = Ok (PList []))
  | Raise e => chat E args w = (Raise e, w)
  end
  /\ (forall d, load_state args = PDict d ->
        exists d', default_fields (load_state args) = Ok (PDict d'))
  /\ (forall s l,
        dict_get args "state" = Some (PStr s) ->
        json_loads s = Some (PList l) ->
        existsb (is_str_key "model") l = false ->
        default_fields (load_state args)
        = Raise (Exn TypeError "list indices must be integers or slices, not str")).
Proof.
  intros Hin. split; [|split].
  - destruct (default_fields (load_state args)) as [sp|e] eqn:Hsp.
    + split; [now apply chat_empty|].
      split; [exact (default_fields_keeps _ _ Hsp)|].
      split; [exact (default_fields_elsewhere _ _ Hsp)|].
      split; [exact (default_fields_model _ _ Hsp)
             | exact (default_fields_history _ _ Hsp)].
    + now apply chat_raises_on_bad_state.
  - intros d ->. apply default_fields_dict.
  - intros s l Hs Hl Hm. unfold load_state, dict_get_default. rewrite Hs, Hl.
    unfold default_fields, ensure_field. simpl. now rewrite Hm.
Qed.

(** ** Inversion of computations *)

Lemma bind_ok {A B} (m : M A) (k : A -> M B) (w w' : world) (b : B) :
  bind m k w = (Ok b, w') ->
  exists a w1, m w = (Ok a, w1) /\ k a w1 = (Ok b, w').
Proof.
  unfold bind. destruct (m w) as [[a|e] w1]; intros H; [eauto | discriminate].
Qed.

Lemma lift_ok {A} (o : outcome A) (w w' : world) (a : A) :
  lift o w = (Ok a, w') -> o = Ok a /\ w' = w.
Proof. unfold lift. intros H. inversion H. auto. Qed.

Lemma ret_ok {A} (x a : A) (w w' : world) :
  ret x w = (Ok a, w') -> a = x /\ w' = w.
Proof. unfold ret. intros H. inversion H. auto. Qed.

Ltac invert_run H :=
  repeat match type of H with
  | bind _ _ _ = (Ok _, _) =>
      let a := fresh "a" in let w1 := fresh "w" in
      let H1 := fresh "Hrun" in
      apply bind_ok in H as (a & w1 & H1 & H)
  end.

(** ** The side channel when no write fails *)

Lemma close_socket_ok (sock : option socket) (w : world) :
  exists w', _close_socket E sock w = (Ok tt, w').
Proof.
  unfold _close_socket, try_except, sock_close. destruct sock as [s|]; simpl.
  - destruct (close_error E); unfold ret; simpl; eauto.
  - unfold lift, no_attribute, ret. simpl. eauto.
Qed.

Lemma send_ok (sock : option socket) (payload : pyval) (w : world) :
  sends_never_fail E ->
  _send E sock payload w
  = (Ok tt, match sock with Some _ => (w ++ [Sent payload])%list | None => w end).
Proof.
  intros Hs. unfold _send, sock_sendall. destruct sock; [|reflexivity].
  now rewrite Hs.
Qed.

Lemma for_each_send_ok (sock : option socket) (f : nat -> pyval) (l : list nat)
    (w : world) :
  sends_never_fail E ->
  exists w', for_each l (fun i => _send E sock (f i)) w = (Ok tt, w').
Proof.
  intros Hs. revert w. induction l as [|i r IH]; intros w; simpl.
  - unfold ret. eauto.
  - unfold bind. rewrite (send_ok _ _ _ Hs). apply IH.
Qed.

Lemma stream_text_ok (sock : option socket) (text : string) (w : world) :
  sends_never_fail E ->
  exists w', _stream_text E sock text w = (Ok tt, w').
Proof.
  intros Hs. unfold _stream_text. destruct sock as [s|].
  - apply (for_each_send_ok (Some s)
             (fun i => output_msg (PStr (str_slice i 10 text))) _ w Hs).
  - unfold ret. eauto.
Qed.

Lemma push_and_close_ok (sock : option socket) (sp : pyval) (text : string)
    (w : world) :
  sends_never_fail E ->
  exists w', push_and_close E sock sp text w = (Ok tt, w').
Proof.
  intros Hs. unfold push_and_close. simpl. unfold bind.
  rewrite (send_ok _ _ _ Hs).
  match goal with
  | |- context [_stream_text E sock text ?w0] =>
      destruct (stream_text_ok sock text w0 Hs) as (w1 & ->)
  end.
  apply close_socket_ok.
Qed.

Lemma command_path_select (args : pydict) (sp : pyval) (text m : string) (w : world) :
  text <> "" ->
  filter (fun model => str_lower model =? str_lower text) STATIC_MODELS = [m] ->
  command_path E args sp ("@" ++ text) w
  = (sock <- _open_socket E args ;;
     sp' <- lift (py_setitem sp "model" (PStr m)) ;;
     push_and_close E sock sp' ("Model updated to: " ++ m) ;;;
     ret (Result (PStr ("Model updated to: " ++ m)) true sp')) w.
Proof.
  intros Hne Hm. unfold command_path.
  destruct (sigil_then_text text) as (_ & Hfrom & Hrest).
  destruct (Hrest Hne) as (Hno & _).
  rewrite Hno, Hfrom, Hm. reflexivity.
Qed.



(** ** The chat path up to the request *)

Lemma chat_at_request (args : pydict) (w : world) (sp messages : pyval)
    (req : request) (sock : option socket) (w2 : world) :
  request_issued E args w sp messages req sock w2 ->
  chat E args w
  = (r <- guarded_request E sock req messages sp ;;
     ret (Result (fst r) true (snd r))) w2.
Proof.
  intros (Hsp & Hin & Hat & Hm & Hreq & w1 & Hopen & Hsend).
  rewrite (chat_chat _ _ _ Hsp Hin Hat).
  unfold chat_path. unfold bind at 1, lift. rewrite Hm.
  unfold bind at 1. rewrite Hreq.
  unfold bind at 1. simpl. rewrite Hopen.
  unfold bind at 1. rewrite Hsend. reflexivity.
Qed.

Lemma chat_path_returns (args : pydict) (sp : pyval) (w w' : world) (r : result) :
  default_fields (load_state args) = Ok sp ->
  user_input args <> "" ->
  startswith (user_input args) "@" = false ->
  chat E args w = (Ok r, w') ->
  exists messages req sock w2 t s',
    request_issued E args w sp messages req sock w2 /\
    guarded_request E sock req messages sp w2 = (Ok (t, s'), w') /\
    r = Result t true s'.
Proof.
  intros Hsp Hin Hat Hrun.
  rewrite (chat_chat _ _ _ Hsp Hin Hat) in Hrun. unfold chat_path in Hrun.
  invert_run Hrun.
  apply lift_ok in Hrun0 as (Hm & ->).
  apply lift_ok in Hrun1 as (Hreq & ->).
  simpl in Hrun2.
  apply ret_ok in Hrun as (-> & ->).
  destruct a3 as [t s']. destruct a2.
  exists a, a0, a1, w3, t, s'. simpl.
  split; [|split; [assumption | reflexivity]].
  unfold request_issued. repeat (split; [assumption|]). eauto.
Qed.

(** ** The [try] statement *)

Lemma guarded_request_done (sock : option socket) (req : request)
    (messages sp : pyval) (w w1 : world) (v : pyval * pyval) :
  request_body E sock req messages sp w = (Ok v, w1) ->
  exists w', guarded_request E sock req messages sp w = (Ok v, w').
Proof.
  intros Hb. unfold guarded_request, try_finally, try_except. rewrite Hb. simpl.
  destruct (close_socket_ok sock w1) as (w' & ->). eauto.
Qed.

Lemma request_failed_run (sock : option socket) (sp : pyval) (e : exn)
    (w : world) :
  request_failed E sock sp e w
  = (_stream_text E sock (failure_text e) ;;;
     ret (PStr (failure_text e), sp)) w.
Proof.
  unfold request_failed, failure_text.
  destruct (is_request_exception e); reflexivity.
Qed.

Lemma guarded_request_failed (sock : option socket) (req : request)
    (messages sp : pyval) (w w1 w2 : world) (e : exn) :
  request_body E sock req messages sp w = (Raise e, w1) ->
  _stream_text E sock (failure_text e) w1 = (Ok tt, w2) ->
  exists w',
    guarded_request E sock req messages sp w
    = (Ok (PStr (failure_text e), sp), w').
Proof.
  intros Hb Hs. unfold guarded_request, try_finally, try_except. rewrite Hb.
  rewrite request_failed_run. unfold bind. rewrite Hs. unfold ret. simpl.
  destruct (close_socket_ok sock w2) as (w' & ->). eauto.
Qed.

Lemma guarded_request_returns (sock : option socket) (req : request)
    (messages sp : pyval) (w w' : world) (v : pyval * pyval) :
  guarded_request E sock req messages sp w = (Ok v, w') ->
  (exists w1, request_body E sock req messages sp w = (Ok v, w1)) \/
  (exists e w1, request_body E sock req messages sp w = (Raise e, w1) /\
                v = (PStr (failure_text e), sp)).
Proof.
  unfold guarded_request, try_finally, try_except.
  destruct (request_body E sock req messages sp w) as [[v0|e] w1] eqn:Hb.
  - simpl. destruct (_close_socket E sock w1) as [[[]|e] w2]; intros H;
      inversion H; subst. eauto.
  - rewrite request_failed_run. unfold bind.
    destruct (_stream_text E sock (failure_text e) w1) as [[[]|e'] w2].
    + unfold ret. simpl.
      destruct (_close_socket E sock w2) as [[[]|e''] w3]; intros H;
        inversion H; subst. right. eauto.
    + simpl. destruct (_close_socket E sock w2) as [[[]|e''] w3]; intros H;
        discriminate.
Qed.

Lemma request_body_returns (sock : option socket) (req : request)
    (messages sp : pyval) (w w' : world) (t s' : pyval) :
  request_body E sock req messages sp w = (Ok (t, s'), w') ->
  exists r full messages',
    http_post E req = Responds r /\ status_error r = None /\
    relay E sock (iter_lines r) (iter_error r) "" w = (Ok full, w') /\
    t = PStr full /\
    py_append messages (assistant_message (PStr full)) = Ok messages' /\
    py_setitem sp "history" messages' = Ok s'.
Proof.
  unfold request_body. simpl.
  destruct (http_post E req) as [e|r]; [discriminate|].
  destruct (status_error r) as [e|] eqn:Hst; [discriminate|].
  intros Hrun. invert_run Hrun.
  apply lift_ok in Hrun1 as (Happ & ->).
  apply lift_ok in Hrun2 as (Hset & ->).
  apply ret_ok in Hrun as (Heq & ->). inversion Heq; subst.
  exists r, a, a0. repeat (split; [assumption || reflexivity|]). assumption.
Qed.

Lemma request_body_fails (sock : option socket) (req : request)
    (messages sp : pyval) (w : world) (e : exn) :
  upstream_fails E req e ->
  request_body E sock req messages sp w = (Raise e, w).
Proof.
  unfold request_body. simpl. intros [Hp|(r & Hp & Hst)]; rewrite Hp.
  - reflexivity.
  - now rewrite Hst.
Qed.

(** ** The relay loop *)

Lemma open_socket_log (args : pydict) (s : socket) (w w1 : world) :
  _open_socket E args w = (Ok (Some s), w1) ->
  exists host port, s = Socket host port /\ w1 = (w ++ [Connected host port])%list.
Proof.
  unfold _open_socket. intros Hrun. invert_run Hrun.
  apply lift_ok in Hrun0 as (_ & ->). apply lift_ok in Hrun1 as (_ & ->).
  destruct ((a =? "") || (a0 =? 0)%Z).
  - apply ret_ok in Hrun as (Hno & _). discriminate.
  - unfold sock_connect in Hrun. destruct (connect_error E a a0); [discriminate|].
    inversion Hrun. eauto.
Qed.

Lemma send_log (s : socket) (payload : pyval) (w w' : world) :
  _send E (Some s) payload w = (Ok tt, w') -> w' = (w ++ [Sent payload])%list.
Proof.
  unfold _send, sock_sendall. destruct (send_error E w payload); intros H;
    now inversion H.
Qed.

Lemma close_socket_log (s : socket) (w : world) :
  _close_socket E (Some s) w = (Ok tt, (w ++ [Closed])%list).
Proof.
  unfold _close_socket, try_except, sock_close.
  destruct (close_error E); reflexivity.
Qed.

Lemma relay_frame_log (s : socket) (data_obj : pyval) (ft full : string)
    (w w' : world) :
  relay_frame E (Some s) data_obj ft w = (Ok full, w') ->
  exists evs, w' = (w ++ evs)%list /\ full = ft ++ join_all (pushed_chunks evs).
Proof.
  unfold relay_frame. intros Hrun. invert_run Hrun.
  apply lift_ok in Hrun0 as (Hfc & ->).
  destruct a as [content|].
  - invert_run Hrun. apply lift_ok in Hrun0 as (Hadd & ->).
    destruct a0. apply send_log in Hrun1 as ->.
    apply ret_ok in Hrun as (-> & ->).
    destruct content; simpl in Hadd; try discriminate. inversion Hadd; subst.
    exists [Sent (output_msg (PStr s0))]. split; [reflexivity|].
    simpl. now rewrite append_empty_r.
  - apply ret_ok in Hrun as (-> & ->). exists []. split.
    + now rewrite app_nil_r.
    + simpl. now rewrite append_empty_r.
Qed.

Lemma relay_nil (sock : option socket) (at_end : option exn) (ft : string) :
  relay E sock [] at_end ft
  = match at_end with Some e => raise e | None => ret ft end.
Proof. reflexivity. Qed.

Lemma relay_cons (sock : option socket) (line : string) (rest : list string)
    (at_end : option exn) (ft : string) :
  relay E sock (line :: rest) at_end ft
  = if line =? "" then relay E sock rest at_end ft
    else if startswith line "data: " then
      if str_from 6 line =? "[DONE]" then ret ft
      else
        match json_loads (str_from 6 line) with
        | None => relay E sock rest at_end ft
        | Some data_obj =>
            ft' <- relay_frame E sock data_obj ft ;;
            relay E sock rest at_end ft'
        end
    else relay E sock rest at_end ft.
Proof. reflexivity. Qed.

Lemma relay_log (s : socket) (lines : list string) (at_end : option exn) :
  forall (ft full : string) (w w' : world),
  relay E (Some s) lines at_end ft w = (Ok full, w') ->
  exists evs, w' = (w ++ evs)%list /\ full = ft ++ join_all (pushed_chunks evs).
Proof.
  assert (Hnone : forall (ft full : string) (w w' : world),
            ret ft w = (Ok full, w') ->
            exists evs, w' = (w ++ evs)%list
                        /\ full = ft ++ join_all (pushed_chunks evs)).
  { intros ft full w w' H. apply ret_ok in H as (-> & ->). exists [].
    split; [now rewrite app_nil_r | simpl; now rewrite append_empty_r]. }
  induction lines as [|line rest IH]; intros ft full w w' Hrun.
  - rewrite relay_nil in Hrun. destruct at_end; [discriminate | now apply Hnone].
  - rewrite relay_cons in Hrun.
    destruct (line =? ""); [now apply IH|].
    destruct (startswith line "data: "); [|now apply IH].
    destruct (str_from 6 line =? "[DONE]"); [now apply Hnone|].
    destruct (json_loads (str_from 6 line)) as [data_obj|]; [|now apply IH].
    invert_run Hrun.
    apply relay_frame_log in Hrun0 as (evs1 & -> & ->).
    apply IH in Hrun as (evs2 & -> & ->).
    exists (evs1 ++ evs2)%list. split; [now rewrite app_assoc|].
    now rewrite pushed_chunks_app, join_all_app, append_assoc.
Qed.

Lemma relay_silent (sock : option socket) (lines : list string)
    (at_end : option exn) (ft : string) (w : world) :
  silent_body lines at_end = true ->
  relay E sock lines at_end ft w = (Ok ft, w).
Proof.
  induction lines as [|line rest IH].
  - simpl. destruct at_end; [discriminate | reflexivity].
  - rewrite relay_cons. cbn [silent_body]. unfold decode_line.
    destruct (line =? ""); [exact IH|].
    destruct (startswith line "data: "); [|exact IH].
    destruct (str_from 6 line =? "[DONE]"); [reflexivity|].
    destruct (json_loads (str_from 6 line)) as [data_obj|]; [|exact IH].
    destruct (frame_content data_obj) as [[content|]|e] eqn:Hfc;
      try discriminate.
    intros Hs. unfold bind, relay_frame, bind, lift. rewrite Hfc. simpl.
    now apply IH.
Qed.

(** C2. On the chat path with a side channel open, when the [try] block of the
    streaming request runs to its end without an exception, [chat] returns
    the accumulated text, and the chunks pushed to the side channel as
    [{"output": chunk}] during the turn, put end to end in the order they
    were sent, are that text. *)
Theorem C2_pushed_chunks_rebuild_output (args : pydict) (w : world)
    (sp messages : pyval) (req : request) (s : socket) (w2 : world)
    (t sp' : pyval) (w3 : world) :
  request_issued E args w sp messages req (Some s) w2 ->
  request_body E (Some s) req messages sp w2 = (Ok (t, sp'), w3) ->
  exists full pushed,
    chat E args w = (Ok (Result (PStr full) true sp'), (w ++ pushed)%list) /\
    join_all (pushed_chunks pushed) = full.
Proof.
  intros Hreq Hbody. rewrite (chat_at_request _ _ _ _ _ _ _ Hreq).
  destruct Hreq as (_ & _ & _ & _ & _ & w1 & Hopen & Hsend).
  apply open_socket_log in Hopen as (host & port & -> & ->).
  apply send_log in Hsend as ->.
  pose proof Hbody as Hb.
  apply request_body_returns in Hb
    as (r & full & messages' & _ & _ & Hrelay & -> & _ & _).
  apply relay_log in Hrelay as (evs & -> & ->).
  exists (join_all (pushed_chunks evs)),
    ([Connected host port; Sent (state_payload_msg sp)] ++ evs ++ [Closed])%list.
  split.
  - unfold bind, guarded_request, try_finally, try_except. rewrite Hbody. simpl.
    rewrite close_socket_log. unfold ret. simpl.
    now rewrite <- !app_assoc.
  - rewrite !pushed_chunks_app, state_push_is_no_chunk. simpl.
    now rewrite app_nil_r.
Qed.

(** C10. On the chat path, when the response has a good status and its body
    has no content delta before the sentinel, or before its end when it ends
    without an error, [chat] returns the empty text, and the history of the
    returned state is the history it had followed by the user message and an
    assistant message whose content is the empty text. *)
Theorem C10_silent_stream_empty_reply (args : pydict) (w : world)
    (sp messages : pyval) (req : request) (sock : option socket) (w2 : world)
    (r : response) :
  request_issued E args w sp messages req sock w2 ->
  http_post E req = Responds r ->
  status_error r = None ->
  silent_body (iter_lines r) (iter_error r) = true ->
  exists hist sp' w',
    py_getitem sp "history" = Ok (PList hist) /\
    chat E args w = (Ok (Result (PStr "") true sp'), w') /\
    py_getitem sp' "history"
    = Ok (PList (hist ++ [user_message (user_input args);
                          assistant_message (PStr "")])) /\
    (forall k, k <> "history" -> py_getitem sp' k = py_getitem sp k).
Proof.
  intros Hreq Hpost Hst Hsilent. rewrite (chat_at_request _ _ _ _ _ _ _ Hreq).
  destruct Hreq as (_ & _ & _ & Hm & _ & _).
  apply build_messages_list in Hm as (hist & Hh & ->).
  destruct (getitem_is_dict _ _ _ Hh) as (d & -> & Hd).
  set (sp' := PDict (dict_set d "history"
                (PList ((hist ++ [user_message (user_input args)])
                        ++ [assistant_message (PStr "")])))).
  assert (Hbody : request_body E sock req
                    (PList (hist ++ [user_message (user_input args)]))
                    (PDict d) w2 = (Ok (PStr "", sp'), w2)).
  { unfold request_body. simpl. rewrite Hpost, Hst. unfold bind.
    rewrite (relay_silent _ _ _ _ _ Hsilent). reflexivity. }
  destruct (guarded_request_done _ _ _ _ _ _ _ Hbody) as (w' & Hg).
  exists hist, sp', w'. split; [assumption|]. split.
  - unfold bind. rewrite Hg. reflexivity.
  - split.
    + unfold sp'. simpl. rewrite dict_get_set_same. now rewrite <- app_assoc.
    + intros k Hk. unfold sp'. simpl. now rewrite dict_get_set_other by congruence.
Qed.

(** C3, as the code has it. On the chat path, when the request fails
    ([requests.post] raises, or the status is refused) and the pushes of the
    error text succeed (as they do without a side channel), [chat] returns; the
    output is the text of lines 234/238, which holds the text of the
    exception, and the state is the state after defaulting: no assistant
    message is added and the user message is not kept. *)
Theorem C3_upstream_failure_keeps_history (args : pydict) (w : world)
    (sp messages : pyval) (req : request) (sock : option socket)
    (w2 w3 : world) (e : exn) :
  request_issued E args w sp messages req sock w2 ->
  upstream_fails E req e ->
  _stream_text E sock (failure_text e) w2 = (Ok tt, w3) ->
  (exists w', chat E args w = (Ok (Result (PStr (failure_text e)) true sp), w'))
  /\ (is_request_exception e = true ->
      failure_text e = "API request failed: " ++ exn_text e).
Proof.
  intros Hreq Hfail Hpush. split.
  - rewrite (chat_at_request _ _ _ _ _ _ _ Hreq).
    pose proof (request_body_fails sock req messages sp w2 e Hfail) as Hbody.
    destruct (guarded_request_failed _ _ _ _ _ _ _ _ Hbody Hpush) as (w' & Hg).
    exists w'. unfold bind. rewrite Hg. reflexivity.
  - intros He. unfold failure_text. now rewrite He.
Qed.

(** ** What a turn can do to the state *)

Lemma command_path_state (args : pydict) (sp : pyval) (u : string)
    (w w' : world) (r : result) :
  command_path E args sp u w = (Ok r, w') ->
  state r = sp \/
  exists m, In m STATIC_MODELS /\ py_setitem sp "model" (PStr m) = Ok (state r).
Proof.
  unfold command_path. intros Hrun. invert_run Hrun. clear Hrun0.
  destruct (u =? "@").
  - invert_run Hrun. apply ret_ok in Hrun as (-> & _). now left.
  - set (matched := filter (fun model => str_lower model =? str_lower (str_from 1 u))
                      STATIC_MODELS) in *.
    destruct (List.length matched =? 0)%nat.
    + invert_run Hrun. apply ret_ok in Hrun as (-> & _). now left.
    + destruct (1 <? List.length matched)%nat.
      * invert_run Hrun. apply ret_ok in Hrun as (-> & _). now left.
      * destruct matched as [|m rest] eqn:Hm; [discriminate|].
        invert_run Hrun. apply lift_ok in Hrun0 as (Hset & _).
        apply ret_ok in Hrun as (-> & _). right. exists m. split; [|assumption].
        assert (Hin : In m matched) by (rewrite Hm; now left).
        apply filter_In in Hin. tauto.
Qed.

Lemma chat_state_cases (args : pydict) (sp : pyval) (w w' : world) (r : result) :
  default_fields (load_state args) = Ok sp ->
  chat E args w = (Ok r, w') ->
  state r = sp
  \/ (exists m, In m STATIC_MODELS /\
                py_setitem sp "model" (PStr m) = Ok (state r))
  \/ (exists hist full,
        py_getitem sp "history" = Ok (PList hist) /\
        output r = PStr full /\
        py_setitem sp "history"
          (PList (hist ++ [user_message (user_input args);
                           assistant_message (PStr full)]))
        = Ok (state r)).
Proof.
  intros Hsp Hrun.
  destruct (String.eqb_spec (user_input args) "") as [Hin|Hin].
  - rewrite (chat_empty _ _ _ Hsp Hin) in Hrun. inversion Hrun. now left.
  - destruct (startswith (user_input args) "@") eqn:Hat.
    + rewrite (chat_command _ _ _ Hsp Hin Hat) in Hrun.
      apply command_path_state in Hrun as [H|H]; auto.
    + apply (chat_path_returns _ _ _ _ _ Hsp Hin Hat) in Hrun
        as (messages & req & sock & w2 & t & s' & Hreq & Hg & ->).
      destruct Hreq as (_ & _ & _ & Hm & _).
      apply build_messages_list in Hm as (hist & Hh & ->).
      apply guarded_request_returns in Hg as [(w1 & Hb)|(e & w1 & _ & Hv)].
      * apply request_body_returns in Hb
          as (resp & full & messages' & _ & _ & _ & -> & Happ & Hset).
        simpl in Happ. inversion Happ; subst messages'.
        right. right. exists hist, full. simpl.
        rewrite <- app_assoc in Hset. auto.
      * inversion Hv; subst. now left.
Qed.

(** C8. Whenever [chat] returns, the state passed the defaulting, and the
    history of the returned state is the history after defaulting, either
    as it was or, when it is a list, with messages added at its end; a state
    that is a dict always has a history after defaulting. *)
Theorem C8_history_append_only (args : pydict) (w w' : world) (r : result) :
  chat E args w = (Ok r, w') ->
  exists sp,
    default_fields (load_state args) = Ok sp /\
    (forall h, py_getitem sp "history" = Ok h ->
       exists h', py_getitem (state r) "history" = Ok h' /\ history_extends h h') /\
    (forall d, load_state args = PDict d ->
       exists h, py_getitem sp "history" = Ok h).
Proof.
  intros Hrun.
  destruct (default_fields (load_state args)) as [sp|e] eqn:Hsp.
  2:{ rewrite (chat_raises_on_bad_state _ _ _ Hsp) in Hrun. discriminate. }
  exists sp. split; [reflexivity|]. split.
  - intros h Hh.
    destruct (chat_state_cases _ _ _ _ _ Hsp Hrun)
      as [Hst|[(m & _ & Hset)|(hist & full & Hhist & _ & Hset)]].
    + rewrite Hst. exists h. split; [assumption | now left].
    + exists h. split; [|now left].
      rewrite (getitem_after_setitem_other _ _ _ "history" _ Hset); [assumption|].
      discriminate.
    + rewrite Hhist in Hh. inversion Hh; subst h.
      eexists. split; [exact (getitem_after_setitem _ _ _ _ Hset)|].
      right. eauto.
  - intros d Hd. rewrite Hd in Hsp.
    destruct (dict_state_has_fields _ _ Hsp) as (d' & model & history & -> & _ & Hh).
    exists history. simpl. now rewrite Hh.
Qed.

(** C9, as the code has it. When the state the caller gave is a dict whose
    model, if it has one, is a non-empty string, the model of a returned
    state is a non-empty string: the default, the catalog entry a command
    selected, or the model the caller gave. *)
Theorem C9_model_stays_nonempty (args : pydict) (d : pydict) (w w' : world)
    (r : result) :
  load_state args = PDict d ->
  (forall v, dict_get d "model" = Some v -> exists s, v = PStr s /\ s <> "") ->
  chat E args w = (Ok r, w') ->
  exists m, py_getitem (state r) "model" = Ok (PStr m) /\ m <> "".
Proof.
  intros Hd Hgood Hrun.
  destruct (default_fields (load_state args)) as [sp|e] eqn:Hsp.
  2:{ rewrite (chat_raises_on_bad_state _ _ _ Hsp) in Hrun. discriminate. }
  assert (Hmodel : exists m, py_getitem sp "model" = Ok (PStr m) /\ m <> "").
  { rewrite Hd in Hsp. destruct (dict_get d "model") as [v|] eqn:Hv.
    - destruct (Hgood v eq_refl) as (s & -> & Hs). exists s. split; [|assumption].
      apply (default_fields_keeps _ _ Hsp). simpl. now rewrite Hv.
    - exists DEFAULT_MODEL. split; [|discriminate].
      apply (default_fields_model _ _ Hsp). simpl. unfold dict_has. now rewrite Hv. }
  destruct Hmodel as (m0 & Hm0 & Hne0).
  destruct (chat_state_cases _ _ _ _ _ Hsp Hrun)
    as [Hst|[(m & Hin & Hset)|(hist & full & _ & _ & Hset)]].
  - rewrite Hst. eauto.
  - exists m. split; [exact (getitem_after_setitem _ _ _ _ Hset)|].
    now apply catalog_entries_not_empty.
  - exists m0. split; [|assumption].
    rewrite (getitem_after_setitem_other _ _ _ "model" _ Hset); [assumption|].
    discriminate.
Qed.

(** ** A side channel that works changes nothing in what [chat] gives *)

Lemma bind_run {A B} (m : M A) (k : A -> M B) (w w' : world) (a : A) :
  m w = (Ok a, w') -> bind m k w = k a w'.
Proof. intros H. unfold bind. now rewrite H. Qed.

Lemma bind_lift {A B} (o : outcome A) (k : A -> M B) (w : world) :
  bind (lift o) k w = match o with Ok a => k a w | Raise e => (Raise e, w) end.
Proof. unfold bind, lift. destruct o; reflexivity. Qed.

Lemma same_value_bind {A B} (m1 m2 : M A) (k1 k2 : A -> M B) :
  same_value m1 m2 ->
  (forall a, same_value (k1 a) (k2 a)) ->
  same_value (bind m1 k1) (bind m2 k2).
Proof.
  intros Hm Hk w1 w2. unfold bind. specialize (Hm w1 w2).
  destruct (m1 w1) as [[a1|e1] w1']; destruct (m2 w2) as [[a2|e2] w2'];
    simpl in Hm; inversion Hm; subst; [apply Hk | reflexivity].
Qed.

Lemma same_value_refl_pure {A} (o : outcome A) : same_value (lift o) (lift o).
Proof. intros w1 w2. reflexivity. Qed.

Lemma same_value_ret {A} (a : A) : same_value (ret a) (ret a).
Proof. intros w1 w2. reflexivity. Qed.

Lemma same_value_unit (m1 m2 : M unit) :
  (forall w, exists w', m1 w = (Ok tt, w')) ->
  (forall w, exists w', m2 w = (Ok tt, w')) ->
  same_value m1 m2.
Proof.
  intros H1 H2 w1 w2. destruct (H1 w1) as (wa & ->).
  destruct (H2 w2) as (wb & ->). reflexivity.
Qed.

Lemma same_value_send (sock1 sock2 : option socket) (payload : pyval) :
  sends_never_fail E ->
  same_value (_send E sock1 payload) (_send E sock2 payload).
Proof.
  intros Hs. apply same_value_unit; intros w; rewrite (send_ok _ _ _ Hs); eauto.
Qed.

Lemma same_value_stream_text (sock1 sock2 : option socket) (text : string) :
  sends_never_fail E ->
  same_value (_stream_text E sock1 text) (_stream_text E sock2 text).
Proof.
  intros Hs. apply same_value_unit; intros w; now apply stream_text_ok.
Qed.

Lemma same_value_close (sock1 sock2 : option socket) :
  same_value (_close_socket E sock1) (_close_socket E sock2).
Proof. apply same_value_unit; intros w; apply close_socket_ok. Qed.

Lemma same_value_push (sock1 sock2 : option socket) (sp : pyval) (text : string) :
  sends_never_fail E ->
  same_value (push_and_close E sock1 sp text) (push_and_close E sock2 sp text).
Proof.
  intros Hs. apply same_value_unit; intros w; now apply push_and_close_ok.
Qed.

Lemma same_value_try_except {A} (b1 b2 : M A) (h1 h2 : exn -> M A) :
  same_value b1 b2 ->
  (forall e, same_value (h1 e) (h2 e)) ->
  same_value (try_except b1 h1) (try_except b2 h2).
Proof.
  intros Hb Hh w1 w2. unfold try_except. specialize (Hb w1 w2).
  destruct (b1 w1) as [[a1|e1] w1']; destruct (b2 w2) as [[a2|e2] w2'];
    simpl in Hb; inversion Hb; subst; [reflexivity | apply Hh].
Qed.

Lemma same_value_try_finally {A} (b1 b2 : M A) (c1 c2 : M unit) :
  same_value b1 b2 ->
  same_value c1 c2 ->
  same_value (try_finally b1 c1) (try_finally b2 c2).
Proof.
  intros Hb Hc w1 w2. unfold try_finally. specialize (Hb w1 w2).
  destruct (b1 w1) as [r1 w1']; destruct (b2 w2) as [r2 w2'].
  simpl in Hb. subst r2. specialize (Hc w1' w2').
  destruct (c1 w1') as [[[]|e1] w1'']; destruct (c2 w2') as [[[]|e2] w2''];
    simpl in Hc; inversion Hc; subst; reflexivity.
Qed.

Lemma same_value_relay_frame (sock1 sock2 : option socket) (data_obj : pyval)
    (ft : string) :
  sends_never_fail E ->
  same_value (relay_frame E sock1 data_obj ft) (relay_frame E sock2 data_obj ft).
Proof.
  intros Hs. unfold relay_frame.
  apply same_value_bind; [apply same_value_refl_pure|]. intros [content|].
  - apply same_value_bind; [apply same_value_refl_pure|]. intros ft'.
    apply same_value_bind; [now apply same_value_send|]. intros _.
    apply same_value_ret.
  - apply same_value_ret.
Qed.

Lemma same_value_relay (sock1 sock2 : option socket) (lines : list string)
    (at_end : option exn) :
  sends_never_fail E ->
  forall ft : string,
  same_value (relay E sock1 lines at_end ft) (relay E sock2 lines at_end ft).
Proof.
  intros Hs. induction lines as [|line rest IH]; intros ft.
  - rewrite !relay_nil. destruct at_end; intros w1 w2; reflexivity.
  - rewrite !relay_cons.
    destruct (line =? ""); [apply IH|].
    destruct (startswith line "data: "); [|apply IH].
    destruct (str_from 6 line =? "[DONE]"); [apply same_value_ret|].
    destruct (json_loads (str_from 6 line)) as [data_obj|]; [|apply IH].
    apply same_value_bind; [now apply same_value_relay_frame | exact IH].
Qed.

Lemma same_value_request_body (sock1 sock2 : option socket) (req : request)
    (messages sp : pyval) :
  sends_never_fail E ->
  same_value (request_body E sock1 req messages sp)
             (request_body E sock2 req messages sp).
Proof.
  intros Hs. unfold request_body. simpl.
  destruct (http_post E req) as [e|r]; [intros w1 w2; reflexivity|].
  destruct (status_error r); [intros w1 w2; reflexivity|].
  apply same_value_bind; [now apply same_value_relay|]. intros full.
  apply same_value_bind; [apply same_value_refl_pure|]. intros m.
  apply same_value_bind; [apply same_value_refl_pure|]. intros s.
  apply same_value_ret.
Qed.

Lemma same_value_guarded_request (sock1 sock2 : option socket) (req : request)
    (messages sp : pyval) :
  sends_never_fail E ->
  same_value (guarded_request E sock1 req messages sp)
             (guarded_request E sock2 req messages sp).
Proof.
  intros Hs. unfold guarded_request. simpl.
  apply same_value_try_finally; [|apply same_value_close].
  apply same_value_try_except; [now apply same_value_request_body|].
  intros e w1 w2. rewrite !request_failed_run.
  apply same_value_bind; [now apply same_value_stream_text|]. intros _.
  apply same_value_ret.
Qed.

Lemma open_socket_configured (args : pydict) (host : string) (port : Z)
    (w : world) :
  py_strip (dict_get_default args "STREAM_HOST" (PStr "")) = Ok host ->
  host <> "" ->
  py_int (dict_get_default args "STREAM_PORT" (PStr "0")) = Ok port ->
  port <> 0%Z ->
  _open_socket E args w = sock_connect E host port w.
Proof.
  intros Hh Hne Hp Hnz. unfold _open_socket, bind, lift. rewrite Hh, Hp.
  destruct (String.eqb_spec host ""); [contradiction|].
  destruct (Z.eqb_spec port 0); [contradiction|]. reflexivity.
Qed.

Lemma open_socket_unset (args : pydict) (port : Z) (w : world) :
  py_int (dict_get_default args "STREAM_PORT" (PStr "0")) = Ok port ->
  _open_socket E (dict_set args "STREAM_HOST" (PStr "")) w = (Ok None, w).
Proof.
  intros Hp. unfold _open_socket, bind, lift, dict_get_default.
  rewrite dict_get_set_same. simpl.
  rewrite dict_get_set_other by discriminate.
  unfold dict_get_default in Hp. rewrite Hp.
  rewrite (str_strip_ascii "") by reflexivity. reflexivity.
Qed.

Lemma unset_host_elsewhere (args : pydict) :
  load_state (dict_set args "STREAM_HOST" (PStr "")) = load_state args /\
  user_input (dict_set args "STREAM_HOST" (PStr "")) = user_input args /\
  forall sp messages,
    build_request E (dict_set args "STREAM_HOST" (PStr "")) sp messages
    = build_request E args sp messages.
Proof.
  unfold load_state, user_input, build_request, _get_headers, dict_get_default.
  rewrite !dict_get_set_other by discriminate. auto.
Qed.

(** C1, as the code has it. With a side-channel host and a non-zero port
    configured, when the connection is accepted and no write on it fails,
    [chat] ends as it does without a side channel: the same output, streaming
    flag and state, or the same exception. Nothing is asked of [close]: its
    failure is the one the code catches. *)
Theorem C1_working_side_channel_changes_nothing (args : pydict) (host : string)
    (port : Z) (w : world) :
  py_strip (dict_get_default args "STREAM_HOST" (PStr "")) = Ok host ->
  host <> "" ->
  py_int (dict_get_default args "STREAM_PORT" (PStr "0")) = Ok port ->
  port <> 0%Z ->
  connect_error E host port = None ->
  sends_never_fail E ->
  fst (chat E args w) = fst (chat E (dict_set args "STREAM_HOST" (PStr "")) w).
Proof.
  intros Hh Hne Hp Hnz Hc Hs.
  destruct (unset_host_elsewhere args) as (Hstate & Hinput & Hreq).
  pose proof (open_socket_configured args host port w Hh Hne Hp Hnz) as Hopen.
  unfold sock_connect in Hopen. rewrite Hc in Hopen.
  pose proof (open_socket_unset args port w Hp) as Hopen'.
  unfold chat. rewrite Hstate, Hinput, !bind_lift.
  destruct (default_fields (load_state args)) as [sp|e]; [|reflexivity].
  destruct (user_input args =? ""); [reflexivity|].
  destruct (startswith (user_input args) "@").
  - unfold command_path. change STREAM_ENABLED with true. cbv iota.
    rewrite (bind_run _ _ _ _ _ Hopen), (bind_run _ _ _ _ _ Hopen').
    destruct (user_input args =? "@").
    + apply same_value_bind; [apply same_value_refl_pure|]. intros model.
      apply same_value_bind; [now apply same_value_push|]. intros _.
      apply same_value_ret.
    + destruct (List.length _ =? 0)%nat.
      * apply same_value_bind; [apply same_value_refl_pure|]. intros model.
        apply same_value_bind; [now apply same_value_push|]. intros _.
        apply same_value_ret.
      * destruct (1 <? List.length _)%nat.
        -- apply same_value_bind; [now apply same_value_push|]. intros _.
           apply same_value_ret.
        -- destruct (filter _ STATIC_MODELS); [reflexivity|].
           apply same_value_bind; [apply same_value_refl_pure|]. intros sp'.
           apply same_value_bind; [now apply same_value_push|]. intros _.
           apply same_value_ret.
  - unfold chat_path. rewrite !bind_lift.
    destruct (build_messages sp (user_input args)) as [messages|e]; [|reflexivity].
    rewrite Hreq, !bind_lift.
    destruct (build_request E args sp messages) as [req|e]; [|reflexivity].
    change STREAM_ENABLED with true. cbv iota.
    rewrite (bind_run _ _ _ _ _ Hopen), (bind_run _ _ _ _ _ Hopen').
    apply same_value_bind; [now apply same_value_send|]. intros _.
    apply same_value_bind; [now apply same_value_guarded_request|]. intros v.
    apply same_value_ret.
Qed.

End Turn.

(** * The properties at work, and where the code departs from them *)

Ltac run := vm_compute; reflexivity.

Lemma hi_request_issued (up : upstream) :
  @request_issued sample_runtime (calm_env up) (side_channel_args "hi") []
    fresh_state hi_messages hi_request (Some localhost) hi_log.
Proof.
  unfold request_issued. split; [run|]. split; [vm_compute; discriminate|].
  split; [run|]. split; [run|]. split; [run|].
  exists [Connected "localhost" 9000]. split; run.
Qed.

Lemma C6_blank_input_witness :
  (@chat sample_runtime (calm_env hello_stream)
     [("input", PStr "   "); ("state", PStr "[]")] [Closed]
   = (Raise (Exn TypeError "list indices must be integers or slices, not str"),
      [Closed]))
  /\ (@chat sample_runtime (calm_env hello_stream)
        [("input", PStr (nbsp ++ " "));
         ("state", PDict [("model", PStr "openai/gpt-5")])]
        [Closed]
      = (Ok (Result (PStr usage) true
               (PDict [("model", PStr "openai/gpt-5"); ("history", PList [])])),
         [Closed])).
Proof.
  split.
  - apply (@C6_blank_input_banner_or_raise sample_runtime (calm_env hello_stream)
             [("input", PStr "   "); ("state", PStr "[]")] [Closed]).
    run.
  - apply (@C6_blank_input_banner_or_raise sample_runtime (calm_env hello_stream)
             [("input", PStr (nbsp ++ " "));
              ("state", PDict [("model", PStr "openai/gpt-5")])] [Closed]).
    run.
Defined.


Lemma C2_hello_world_witness :
  exists full pushed,
    @chat sample_runtime (calm_env hello_stream) (side_channel_args "hi") []
    = (Ok (Result (PStr full) true (replied_state "Hello world")), ([] ++ pushed)%list)
    /\ join_all (pushed_chunks pushed) = full.
Proof.
  apply (@C2_pushed_chunks_rebuild_output sample_runtime (calm_env hello_stream)
           (side_channel_args "hi") [] fresh_state hi_messages hi_request
           localhost hi_log (PStr "Hello world") (replied_state "Hello world")
           (hi_log ++ [Sent (output_msg (PStr "Hel")); Sent (output_msg (PStr "lo"));
                       Sent (output_msg (PStr " world"))])%list).
  - apply hi_request_issued.
  - run.
Defined.

Lemma C10_silent_stream_witness :
  exists hist sp' w',
    py_getitem fresh_state "history" = Ok (PList hist) /\
    @chat sample_runtime (calm_env silent_stream) (side_channel_args "hi") []
    = (Ok (Result (PStr "") true sp'), w') /\
    py_getitem sp' "history"
    = Ok (PList (hist ++ [user_message "hi"; assistant_message (PStr "")])) /\
    (forall k, k <> "history" -> py_getitem sp' k = py_getitem fresh_state k).
Proof.
  apply (@C10_silent_stream_empty_reply sample_runtime (calm_env silent_stream)
           (side_channel_args "hi") [] fresh_state hi_messages hi_request
           (Some localhost) hi_log
           (Response None [ "data: " ++ role_json; ""; "data: [DONE]" ] None
              (Raise (Exn RequestException "Expecting value")))).
  - apply hi_request_issued.
  - run.
  - run.
  - run.
Defined.

Lemma C3_unreachable_upstream_witness :
  exists w',
    @chat sample_runtime (calm_env unreachable_upstream) (side_channel_args "hi") []
    = (Ok (Result (PStr "API request failed: Connection aborted.") true fresh_state),
       w').
Proof.
  refine (proj1 (@C3_upstream_failure_keeps_history sample_runtime
                   (calm_env unreachable_upstream) (side_channel_args "hi") []
                   fresh_state hi_messages hi_request (Some localhost) hi_log
                   _ (Exn RequestException "Connection aborted.") _ _ _)).
  - apply hi_request_issued.
  - left. run.
  - run.
Defined.

Lemma C8_second_turn_witness :
  exists sp,
    default_fields
      (@load_state sample_runtime
         [("input", PStr "hi"); ("state", replied_state "Hello world")]) = Ok sp /\
    (forall h, py_getitem sp "history" = Ok h ->
       exists h',
         py_getitem
           (PDict [("model", PStr DEFAULT_MODEL);
                   ("history",
                    PList [user_message "hi"; assistant_message (PStr "Hello world");
                           user_message "hi"; assistant_message (PStr "Hello world")])])
           "history" = Ok h' /\ history_extends h h') /\
    (forall d,
       @load_state sample_runtime
         [("input", PStr "hi"); ("state", replied_state "Hello world")] = PDict d ->
       exists h, py_getitem sp "history" = Ok h).
Proof.
  apply (@C8_history_append_only sample_runtime (calm_env hello_stream)
           [("input", PStr "hi"); ("state", replied_state "Hello world")] [] []
           (Result (PStr "Hello world") true
              (PDict [("model", PStr DEFAULT_MODEL);
                      ("history",
                       PList [user_message "hi"; assistant_message (PStr "Hello world");
                              user_message "hi"; assistant_message (PStr "Hello world")])]))).
  run.
Defined.

Lemma C9_given_model_witness :
  exists m,
    py_getitem (PDict [("model", PStr "openai/gpt-5"); ("history", PList [])]) "model"
    = Ok (PStr m) /\ m <> "".
Proof.
  apply (@C9_model_stays_nonempty sample_runtime (calm_env hello_stream)
           [("input", PStr ""); ("state", PDict [("model", PStr "openai/gpt-5")])]
           [("model", PStr "openai/gpt-5")] [] []
           (Result (PStr usage) true
              (PDict [("model", PStr "openai/gpt-5"); ("history", PList [])]))).
  - run.
  - intros v Hv. vm_compute in Hv. inversion Hv.
    exists "openai/gpt-5". split; [reflexivity | discriminate].
  - run.
Defined.

Lemma C1_calm_side_channel_witness :
  fst (@chat sample_runtime (calm_env hello_stream) (side_channel_args "hi") [])
  = fst (@chat sample_runtime (calm_env hello_stream)
           (dict_set (side_channel_args "hi") "STREAM_HOST" (PStr "")) []).
Proof.
  apply (@C1_working_side_channel_changes_nothing sample_runtime
           (calm_env hello_stream) (side_channel_args "hi") "localhost" 9000%Z []).
  - run.
  - discriminate.
  - run.
  - discriminate.
  - run.
  - intros w payload. reflexivity.
Defined.

(** C1, where the code departs from it. With a host and a port configured, a
    refused connection makes [chat] raise on a command, where it returns a
    result without a side channel; so does a write that fails, on a command
    and in the middle of a streamed reply. *)
Lemma C1_transport_failure_is_fatal :
  fst (@chat sample_runtime (refusing_env hello_stream) (side_channel_args "@") [])
  = Raise connection_refused
  /\ (exists r,
        fst (@chat sample_runtime (refusing_env hello_stream) [("input", PStr "@")] [])
        = Ok r)
  /\ fst (@chat sample_runtime (resetting_env 0 hello_stream) (side_channel_args "@") [])
     = Raise connection_reset
  /\ fst (@chat sample_runtime (resetting_env 2 hello_stream) (side_channel_args "hi") [])
     = Raise connection_reset.
Proof.
  split; [run|]. split; [eexists; run|]. split; run.
Qed.

(** C3, where the code departs from it. The upstream is unreachable, the side
    channel took the state and resets on the next write: the push of the error
    text raises inside the handler and [chat] raises, it does not return. *)
Lemma C3_failed_error_push_is_fatal :
  @upstream_fails (resetting_env 1 unreachable_upstream) hi_request
     (Exn RequestException "Connection aborted.")
  /\ @chat sample_runtime (resetting_env 1 unreachable_upstream)
       (side_channel_args "hi") []
     = (Raise connection_reset, (hi_log ++ [Closed])%list).
Proof. split; [left; run | run]. Qed.

(** C9, where the code departs from it. A model that is given is kept as it
    is: the empty string stays, and so does a number. *)
Lemma C9_empty_model_is_kept :
  (exists r w',
     @chat sample_runtime (calm_env hello_stream)
       [("input", PStr ""); ("state", PDict [("model", PStr "")])] []
     = (Ok r, w') /\ py_getitem (state r) "model" = Ok (PStr ""))
  /\ (exists r w',
        @chat sample_runtime (calm_env hello_stream)
          [("input", PStr "@nothing"); ("state", PDict [("model", PInt 7)])] []
        = (Ok r, w') /\ py_getitem (state r) "model" = Ok (PInt 7)).
Proof. split; eexists; eexists; split; run. Qed.

(** C4, which the code breaks. A [state] string that decodes to a JSON list
    without the word model in it passes line 98 as that list, and the
    assignment of line 102 raises [TypeError]: [chat] does not return. *)
Theorem C4_state_decoding_to_list_raises {rt : PyRuntime} (E : env)
    (args : pydict) (s : string) (l : list pyval) (w : world) :
  dict_get args "state" = Some (PStr s) ->
  json_loads s = Some (PList l) ->
  existsb (is_str_key "model") l = false ->
  chat E args w
  = (Raise (Exn TypeError "list indices must be integers or slices, not str"), w).
Proof.
  intros Hs Hl Hm. apply chat_raises_on_bad_state.
  unfold load_state, dict_get_default. rewrite Hs, Hl.
  unfold default_fields, ensure_field. simpl. now rewrite Hm.
Qed.

Lemma C4_empty_list_state_witness :
  @chat sample_runtime (calm_env hello_stream)
    [("input", PStr ""); ("state", PStr "[]")] []
  = (Raise (Exn TypeError "list indices must be integers or slices, not str"), []).
Proof.
  apply (@C4_state_decoding_to_list_raises sample_runtime (calm_env hello_stream)
           [("input", PStr ""); ("state", PStr "[]")] "[]" [] []); run.
Defined.

(** C7, which the code breaks. The peer accepts the connection and resets it
    on the first write: the push of the state raises outside any [try], on a
    command and on a chat turn alike, and [chat] is left with the socket still
    open. *)
Theorem C7_socket_left_open_on_failed_push :
  (@chat sample_runtime (resetting_env 0 hello_stream) (side_channel_args "@") []
   = (Raise connection_reset, [Connected "localhost" 9000]))
  /\ (@chat sample_runtime (resetting_env 0 hello_stream) (side_channel_args "hi") []
      = (Raise connection_reset, [Connected "localhost" 9000]))
  /\ socket_open [Connected "localhost" 9000] false = true.
Proof. split; [run|]. split; run. Qed.

(** * More of the module *)

(** ** Text cut in slices *)

Lemma rstrip_char_splits (ch : ascii) (s : string) :
  exists n, s = rstrip_char ch s ++ repeat_char ch n /\
            last_char (rstrip_char ch s) <> Some ch.
Proof.
  induction s as [|c r (n & Hr & Hlast)]; simpl.
  - exists 0. split; [reflexivity | discriminate].
  - destruct (rstrip_char ch r) as [|c0 r0] eqn:Hstrip.
    + destruct (Ascii.eqb_spec c ch) as [->|Hc].
      * exists (S n). simpl in *. split; [now rewrite <- Hr | discriminate].
      * exists n. simpl in *. split; [now rewrite <- Hr|]. congruence.
    + exists n. split; [simpl in *; now rewrite <- Hr|].
      simpl in *. exact Hlast.
Qed.

Lemma chars_nil (s : string) : chars s = [] -> s = "".
Proof. intros H. rewrite <- (join_all_chars s), H. reflexivity. Qed.

Lemma continues_end (c : ascii) : continues c "" = false.
Proof. unfold continues. simpl. apply andb_false_r. Qed.

Lemma str_len_cons (c : ascii) (r : string) :
  str_len (String c r) = (if continues c r then 0 else 1) + str_len r.
Proof.
  unfold str_len. simpl. destruct (chars r) as [|g gs] eqn:Hr.
  - apply chars_nil in Hr. subst r. now rewrite continues_end.
  - now destruct (continues c r).
Qed.

Lemma str_len_app_le (a b : string) : str_len (a ++ b) <= str_len a + str_len b.
Proof.
  induction a as [|c a IH]; [simpl; lia|].
  change (String c a ++ b) with (String c (a ++ b)). rewrite !str_len_cons.
  destruct a as [|c' a].
  - rewrite continues_end.
    destruct (continues c ("" ++ b)); simpl in *; lia.
  - change (continues c (String c' a ++ b)) with (continues c (String c' a)).
    lia.
Qed.

Lemma first_char_starts (s g : string) (gs : list string) :
  chars s = g :: gs -> starts_with_cont g = starts_with_cont s.
Proof.
  destruct s as [|c r]; simpl; [discriminate|].
  destruct (chars r); [|destruct (continues c r)]; intros H; now inversion H.
Qed.

(** Each group of [chars] is one character. *)
Lemma chars_are_single (s : string) : Forall (fun g => str_len g <= 1) (chars s).
Proof.
  induction s as [|c r IH]; simpl; [constructor|].
  destruct (chars r) as [|g gs] eqn:Hr.
  - constructor; [|constructor]. rewrite str_len_cons, continues_end.
    unfold str_len. simpl. lia.
  - inversion IH as [|? ? Hg Hgs]; subst.
    destruct (continues c r) eqn:Hc.
    + constructor; [|assumption]. rewrite str_len_cons.
      unfold continues in *. rewrite (first_char_starts r g gs Hr), Hc. lia.
    + constructor; [|assumption]. rewrite str_len_cons, continues_end.
      unfold str_len. simpl. lia.
Qed.

Lemma Forall_slice {A} (P : A -> Prop) (i n : nat) (l : list A) :
  Forall P l -> Forall P (firstn n (skipn i l)).
Proof.
  intros H. apply Forall_forall. intros x Hx. rewrite Forall_forall in H.
  apply H. assert (Hin : In x (firstn n (skipn i l) ++ skipn n (skipn i l))%list).
  { apply in_or_app. now left. }
  rewrite firstn_skipn in Hin.
  assert (Hin' : In x (firstn i l ++ skipn i l)%list).
  { apply in_or_app. now right. }
  now rewrite firstn_skipn in Hin'.
Qed.

Lemma str_len_join_le (gs : list string) :
  Forall (fun g => str_len g <= 1) gs -> str_len (join_all gs) <= List.length gs.
Proof.
  induction 1 as [|g gs Hg _ IH]; simpl; [unfold str_len; simpl; lia|].
  pose proof (str_len_app_le g (join_all gs)). lia.
Qed.

(** A slice of [n] characters is at most [n] characters long. *)
Lemma str_slice_len_le (i n : nat) (s : string) : str_len (str_slice i n s) <= n.
Proof.
  unfold str_slice.
  pose proof (str_len_join_le (firstn n (skipn i (chars s)))
                (Forall_slice _ i n _ (chars_are_single s))) as Hle.
  pose proof (firstn_le_length n (skipn i (chars s))). lia.
Qed.

Lemma list_slices_rebuild {A} (m : nat) :
  forall l : list A,
  List.length l <= m * 10 ->
  concat (map (fun k => firstn 10 (skipn (k * 10) l)) (seq 0 m)) = l.
Proof.
  induction m as [|m IH]; intros l Hlen.
  - destruct l; [reflexivity | simpl in Hlen; lia].
  - cbn [seq]. rewrite <- seq_shift. cbn [map concat]. rewrite map_map.
    change (skipn (0 * 10) l) with l.
    transitivity (firstn 10 l ++ skipn 10 l)%list; [|apply firstn_skipn].
    f_equal.
    transitivity (concat (map (fun k => firstn 10 (skipn (k * 10) (skipn 10 l)))
                              (seq 0 m))).
    + f_equal. apply map_ext. intros k. rewrite skipn_skipn.
      now replace (S k * 10) with (k * 10 + 10) by lia.
    + apply IH. rewrite length_skipn. lia.
Qed.

Lemma join_all_concat (ls : list (list string)) :
  join_all (concat ls) = join_all (map join_all ls).
Proof.
  induction ls as [|l ls IH]; simpl; [reflexivity|].
  now rewrite join_all_app, IH.
Qed.

Lemma slices_rebuild (m : nat) (text : string) :
  str_len text <= m * 10 ->
  join_all (map (fun k => str_slice (k * 10) 10 text) (seq 0 m)) = text.
Proof.
  intros Hlen. unfold str_slice.
  rewrite <- (map_map (fun k => firstn 10 (skipn (k * 10) (chars text))) join_all).
  rewrite <- join_all_concat, list_slices_rebuild by exact Hlen.
  apply join_all_chars.
Qed.

Lemma range_step_covers (n : nat) : n <= (n + 10 - 1) / 10 * 10.
Proof.
  pose proof (Nat.div_mod_eq (n + 10 - 1) 10) as Hd.
  pose proof (Nat.mod_upper_bound (n + 10 - 1) 10) as Hm. lia.
Qed.

Lemma pushed_chunks_of_pushes (f : nat -> string) (l : list nat) :
  pushed_chunks (map (fun i => Sent (output_msg (PStr (f i)))) l) = map f l.
Proof. induction l as [|i r IH]; simpl; [reflexivity | now rewrite <- IH]. Qed.

Lemma slice_events_rebuild (text : string) :
  join_all (pushed_chunks (slice_events text)) = text /\
  Forall (fun chunk => str_len chunk <= 10) (pushed_chunks (slice_events text)) /\
  List.length (slice_events text) = (str_len text + 9) / 10.
Proof.
  unfold slice_events.
  rewrite (pushed_chunks_of_pushes (fun i => str_slice i 10 text)).
  unfold range_step. rewrite map_map. split; [|split].
  - apply slices_rebuild. apply range_step_covers.
  - apply Forall_forall. intros chunk Hin. apply in_map_iff in Hin as (k & <- & _).
    apply str_slice_len_le.
  - rewrite !length_map, length_seq. f_equal. lia.
Qed.

Ltac split_run H :=
  repeat match type of H with
  | bind _ _ _ = (Ok _, _) =>
      let a := fresh "a" in let w1 := fresh "w" in
      let H1 := fresh "Hrun" in
      apply bind_ok in H as (a & w1 & H1 & H)
  end.

Section More.
Context {rt : PyRuntime}.
Variable E : env.

(** ** The helpers *)

(** X1. When the base URL is a string, taken from [args] or, without the key,
    from the environment, [_get_base_url] returns it without its trailing
    slashes: the string is the result followed by slashes only, and the
    result does not end with a slash. *)
Theorem base_url_loses_trailing_slashes (args : pydict) (s : string) :
  dict_get args "OLLAMA_API_HOST" = Some (PStr s) \/
  (dict_get args "OLLAMA_API_HOST" = None /\
   os_getenv E "OLLAMA_API_HOST" = Some s) ->
  exists url n,
    _get_base_url E args = Ok url /\
    s = url ++ repeat_char "/" n /\
    last_char url <> Some "/"%char.
Proof.
  intros Hbase.
  assert (Hb : dict_get_default args "OLLAMA_API_HOST"
                 (PStr (match os_getenv E "OLLAMA_API_HOST" with
                        | Some h => h | None => "" end)) = PStr s).
  { unfold dict_get_default. destruct Hbase as [-> | [-> ->]]; reflexivity. }
  unfold _get_base_url. rewrite Hb. simpl.
  destruct (rstrip_char_splits "/" s) as (n & Hs & Hlast).
  destruct (String.eqb_spec s "") as [->|Hne].
  - exists "", 0. simpl. repeat split; discriminate.
  - simpl. exists (rstrip_char "/" s), n. auto.
Qed.

(** X2. A base URL in [args] that is not a string makes [_get_base_url]
    raise [AttributeError] when it is truthy (a number other than zero,
    [True], a non-empty list or dict); when it is falsy ([None], [0],
    [False], an empty list or dict) the result is the empty text. In both
    cases the environment is not looked at. *)
Theorem base_url_of_a_non_string (args : pydict) (v : pyval) :
  dict_get args "OLLAMA_API_HOST" = Some v ->
  (forall s, v <> PStr s) ->
  (py_truthy v = true ->
   exists e, exn_kind e = AttributeError /\ _get_base_url E args = Raise e) /\
  (py_truthy v = false -> _get_base_url E args = Ok "").
Proof.
  intros Hv Hns. unfold _get_base_url, dict_get_default. rewrite Hv.
  split; intros Ht; rewrite Ht; [|reflexivity].
  destruct v; try (eexists; split; [|reflexivity]; reflexivity).
  exfalso. now apply (Hns s).
Qed.

Lemma close_socket_run (sock : option socket) (w : world) :
  _close_socket E sock w
  = (Ok tt, match sock with Some _ => (w ++ [Closed])%list | None => w end).
Proof.
  unfold _close_socket, try_except, sock_close. destruct sock.
  - destruct (close_error E); reflexivity.
  - reflexivity.
Qed.

(** X3. [_close_socket] never raises, whatever [close] does and whatever it
    is given: on a socket the log gains one [Closed], on [None] nothing
    happens at all. *)
Theorem close_socket_never_raises (sock : option socket) (w : world) :
  exists w',
    _close_socket E sock w = (Ok tt, w') /\
    w' = match sock with Some _ => (w ++ [Closed])%list | None => w end.
Proof. eexists. split; [apply close_socket_run | reflexivity]. Qed.

Lemma for_each_send_log (s : socket) (f : nat -> pyval) (l : list nat) (w : world) :
  sends_never_fail E ->
  for_each l (fun i => _send E (Some s) (f i)) w
  = (Ok tt, (w ++ map (fun i => Sent (f i)) l)%list).
Proof.
  intros Hs. revert w. induction l as [|i r IH]; intros w; cbn [for_each map].
  - unfold ret. now rewrite app_nil_r.
  - unfold bind. rewrite (send_ok _ _ _ _ Hs). rewrite IH.
    now rewrite <- app_assoc.
Qed.

(** X4. On an open socket whose writes go through, [_stream_text] pushes the
    text in slices of at most ten characters, counted as Python counts them
    and not in bytes, which, put end to end in the order sent, are the text;
    there are as many pushes as tens in the length in characters, rounded up,
    so an empty text pushes nothing. *)
Theorem stream_text_slices_rebuild_text (s : socket) (text : string) (w : world) :
  sends_never_fail E ->
  _stream_text E (Some s) text w = (Ok tt, (w ++ slice_events text)%list) /\
  join_all (pushed_chunks (slice_events text)) = text /\
  Forall (fun chunk => str_len chunk <= 10) (pushed_chunks (slice_events text)) /\
  List.length (slice_events text) = (str_len text + 9) / 10.
Proof.
  intros Hs. split; [|apply slice_events_rebuild].
  unfold _stream_text, slice_events.
  apply (for_each_send_log s (fun i => output_msg (PStr (str_slice i 10 text)))
           _ w Hs).
Qed.

(** ** The decoder *)

Lemma relay_step (sock : option socket) (line : string) (rest : list string)
    (at_end : option exn) (ft : string) (w : world) :
  relay E sock (line :: rest) at_end ft w
  = match decode_line line with
    | Ignored => relay E sock rest at_end ft w
    | Done => (Ok ft, w)
    | Delta content =>
        (ft' <- lift (py_str_iadd ft content) ;;
         _send E sock (output_msg content) ;;;
         relay E sock rest at_end ft') w
    | Broken e => (Raise e, w)
    end.
Proof.
  rewrite relay_cons. unfold decode_line.
  destruct (line =? ""); [reflexivity|].
  destruct (startswith line "data: "); [|reflexivity].
  destruct (str_from 6 line =? "[DONE]"); [reflexivity|].
  destruct (json_loads (str_from 6 line)) as [data_obj|]; [|reflexivity].
  unfold relay_frame, bind, lift.
  destruct (frame_content data_obj) as [[content|]|e]; try reflexivity.
  destruct (py_str_iadd ft content) as [ft'|e]; [|reflexivity].
  destruct (_send E sock (output_msg content) w) as [[[]|e] w']; reflexivity.
Qed.

Lemma relay_after_prefix (sock : option socket) (before : list string)
    (tail1 tail2 : list string) (end1 end2 : option exn) :
  (forall ft w, relay E sock tail1 end1 ft w = relay E sock tail2 end2 ft w) ->
  forall ft w,
  relay E sock (before ++ tail1) end1 ft w = relay E sock (before ++ tail2) end2 ft w.
Proof.
  intros Htail. induction before as [|line rest IH]; intros ft w; [apply Htail|].
  rewrite <- !app_comm_cons, !relay_step.
  destruct (decode_line line) as [| |content|e]; try reflexivity; [apply IH|].
  unfold bind, lift. destruct (py_str_iadd ft content) as [ft'|e]; [|reflexivity].
  destruct (_send E sock (output_msg content) w) as [[[]|e] w']; [|reflexivity].
  apply IH.
Qed.

(** X5. A line the decoder ignores (a blank line, a line without the
    [data: ] marker, a payload that is not JSON, a frame without a content
    field) changes nothing wherever it stands in the body: the text
    accumulated, the pushes and the outcome are those of the body without
    it. *)
Theorem ignored_line_changes_nothing (sock : option socket)
    (before after : list string) (line : string) (at_end : option exn)
    (ft : string) (w : world) :
  decode_line line = Ignored ->
  relay E sock (before ++ line :: after) at_end ft w
  = relay E sock (before ++ after) at_end ft w.
Proof.
  intros Hline. apply relay_after_prefix. intros ft' w'.
  now rewrite relay_step, Hline.
Qed.

(** X6. Nothing is read after the [[DONE]] sentinel: the lines that follow
    it, and an error the body would raise at its end, have no effect. *)
Theorem nothing_is_read_after_done (sock : option socket)
    (before after : list string) (line : string) (at_end : option exn)
    (ft : string) (w : world) :
  decode_line line = Done ->
  relay E sock (before ++ line :: after) at_end ft w
  = relay E sock (before ++ [line]) None ft w.
Proof.
  intros Hline. apply relay_after_prefix. intros ft' w'.
  now rewrite !relay_step, Hline.
Qed.

(** X7. A frame whose content field is not a string (a JSON null, a number,
    a list) stops the loop with [TypeError] at the [+=] of line 211: nothing
    of that frame is pushed and the rest of the body is not read. *)
Theorem content_that_is_no_text_stops_the_relay (sock : option socket)
    (line : string) (rest : list string) (content : pyval)
    (at_end : option exn) (ft : string) (w : world) :
  decode_line line = Delta content ->
  (forall s, content <> PStr s) ->
  exists e, exn_kind e = TypeError /\
            relay E sock (line :: rest) at_end ft w = (Raise e, w).
Proof.
  intros Hline Hns. rewrite relay_step, Hline. unfold bind, lift.
  destruct content; simpl; try (eexists; split; [|reflexivity]; reflexivity).
  exfalso. now apply (Hns s).
Qed.

Lemma relay_pushes (s : socket) (lines : list string) (at_end : option exn) :
  forall (ft full : string) (w w' : world),
  relay E (Some s) lines at_end ft w = (Ok full, w') ->
  exists chunks,
    w' = (w ++ map (fun c => Sent (output_msg (PStr c))) chunks)%list /\
    full = ft ++ join_all chunks.
Proof.
  induction lines as [|line rest IH]; intros ft full w w' Hrun.
  - rewrite relay_nil in Hrun. destruct at_end; [discriminate|].
    apply ret_ok in Hrun as (-> & ->). exists []. simpl.
    now rewrite app_nil_r, append_empty_r.
  - rewrite relay_step in Hrun.
    destruct (decode_line line) as [| |content|e].
    + now apply IH.
    + inversion Hrun; subst. exists []. simpl.
      now rewrite app_nil_r, append_empty_r.
    + split_run Hrun. apply lift_ok in Hrun0 as (Hadd & ->).
      destruct a0. apply send_log in Hrun1 as ->.
      destruct content; simpl in Hadd; try discriminate. inversion Hadd; subst.
      apply IH in Hrun as (chunks & -> & ->).
      exists (s0 :: chunks). simpl. split.
      * now rewrite <- app_assoc.
      * now rewrite append_assoc.
    + discriminate.
Qed.

(** X8. What a chat turn that runs to its end writes on an open side channel:
    the connection, the state once, then the content chunks of the reply in
    their order and nothing else, then the close. The chunks put end to end
    are the output. *)
Theorem side_channel_log_of_a_reply (args : pydict) (w : world)
    (sp messages : pyval) (req : request) (s : socket) (w2 : world)
    (t sp' : pyval) (w3 : world) :
  request_issued E args w sp messages req (Some s) w2 ->
  request_body E (Some s) req messages sp w2 = (Ok (t, sp'), w3) ->
  exists host port chunks,
    s = Socket host port /\
    chat E args w
    = (Ok (Result (PStr (join_all chunks)) true sp'),
       (w ++ [Connected host port; Sent (state_payload_msg sp)]
          ++ map (fun c => Sent (output_msg (PStr c))) chunks
          ++ [Closed])%list).
Proof.
  intros Hreq Hbody. rewrite (chat_at_request _ _ _ _ _ _ _ _ Hreq).
  destruct Hreq as (_ & _ & _ & _ & _ & w1 & Hopen & Hsend).
  apply open_socket_log in Hopen as (host & port & -> & ->).
  apply send_log in Hsend as ->.
  pose proof Hbody as Hb.
  apply request_body_returns in Hb
    as (r & full & messages' & _ & _ & Hrelay & -> & _ & _).
  apply relay_pushes in Hrelay as (chunks & -> & ->).
  exists host, port, chunks. split; [reflexivity|].
  unfold bind, guarded_request, try_finally, try_except. rewrite Hbody. simpl.
  rewrite close_socket_log. unfold ret. simpl.
  now rewrite <- !app_assoc.
Qed.

(** ** Commands *)

Lemma sigil_first (u : string) :
  startswith u "@" = true -> u = "@" ++ str_from 1 u.
Proof.
  unfold startswith. destruct u as [|c r]; [discriminate|].
  cbn [prefix]. destruct (Ascii.ascii_dec "@" c) as [<-|]; [|discriminate].
  intros _. now rewrite (str_from_after_ascii "@" r).
Qed.

Lemma str_from_sigil (text : string) : str_from 1 ("@" ++ text) = text.
Proof. now apply (str_from_after_ascii "@" text). Qed.

Lemma alone_or_followed (text : string) :
  (("@" ++ text) =? "@") = (text =? "").
Proof. destruct text; reflexivity. Qed.

(** X9. A command that returns does one of three things and keeps the
    streaming flag set: the bare sigil lists the catalog with the current
    model and leaves the state as it was; a text no entry matches reports so
    and leaves the state as it was; a text one entry matches sets the model to
    that entry and reports it. The report of several matches (lines 147-155)
    is never produced. *)
Theorem command_has_three_outcomes (args : pydict) (sp : pyval) (w w' : world)
    (r : result) :
  default_fields (load_state args) = Ok sp ->
  startswith (user_input args) "@" = true ->
  chat E args w = (Ok r, w') ->
  streaming r = true /\
  ((str_from 1 (user_input args) = "" /\ state r = sp /\
    exists model, py_getitem sp "model" = Ok model /\
                  output r = PStr (listing_text model))
   \/ (str_from 1 (user_input args) <> "" /\
       matching_models (str_from 1 (user_input args)) = [] /\ state r = sp /\
       exists model, py_getitem sp "model" = Ok model /\
         output r = PStr (no_match_text (str_from 1 (user_input args)) model))
   \/ (str_from 1 (user_input args) <> "" /\
       exists m, matching_models (str_from 1 (user_input args)) = [m] /\
         py_setitem sp "model" (PStr m) = Ok (state r) /\
         output r = PStr ("Model updated to: " ++ m))).
Proof.
  intros Hsp Hat Hrun.
  assert (Hin : user_input args <> "").
  { intros Heq. rewrite Heq in Hat. discriminate. }
  rewrite (chat_command _ _ _ _ Hsp Hin Hat) in Hrun.
  pose proof (sigil_first _ Hat) as Hu.
  set (text := str_from 1 (user_input args)) in *.
  unfold command_path in Hrun. split_run Hrun. clear Hrun0.
  rewrite Hu in Hrun. rewrite alone_or_followed in Hrun.
  cbv zeta in Hrun. rewrite (str_from_sigil text) in Hrun.
  fold (matching_models text) in Hrun.
  destruct (String.eqb_spec text "") as [Hempty|Hne].
  - split_run Hrun. apply lift_ok in Hrun0 as (Hm & _).
    apply ret_ok in Hrun as (-> & _). split; [reflexivity|]. left.
    simpl. repeat split; eauto.
  - destruct (matches_at_most_one text) as [Hnone|(m & Hone)];
      fold (matching_models text) in *.
    + rewrite Hnone in Hrun. simpl in Hrun.
      split_run Hrun. apply lift_ok in Hrun0 as (Hm & _).
      apply ret_ok in Hrun as (-> & _). split; [reflexivity|]. right. left.
      simpl. repeat split; eauto.
    + rewrite Hone in Hrun. simpl in Hrun.
      split_run Hrun. apply lift_ok in Hrun0 as (Hset & _).
      apply ret_ok in Hrun as (-> & _). split; [reflexivity|]. right. right.
      simpl. split; [assumption|]. exists m. auto.
Qed.

Lemma unique_key_is_found {A} (f : A -> string) (a : A) (l : list A) :
  NoDup (map f l) -> In a l -> filter (fun b => f b =? f a) l = [a].
Proof.
  intros Hnd Hin.
  assert (Hthere : In a (filter (fun b => f b =? f a) l)).
  { apply filter_In. split; [assumption | apply String.eqb_refl]. }
  destruct (filter_key_at_most_one f (f a) l Hnd) as [Hnone|(b & Hone)].
  - rewrite Hnone in Hthere. contradiction.
  - rewrite Hone in Hthere. destruct Hthere as [<-|[]]. assumption.
Qed.

(** X10. Every entry of the catalog can be selected by its name written in
    any mix of upper and lower case: a returning turn sets the model to the
    entry as the catalog spells it. *)
Theorem every_catalog_entry_can_be_selected (args : pydict) (sp : pyval)
    (text m : string) (w w' : world) (r : result) :
  default_fields (load_state args) = Ok sp ->
  user_input args = "@" ++ text ->
  In m STATIC_MODELS ->
  str_lower text = m ->
  chat E args w = (Ok r, w') ->
  py_getitem (state r) "model" = Ok (PStr m) /\
  output r = PStr ("Model updated to: " ++ m).
Proof.
  intros Hsp Hin Hcat Hlow Hrun.
  assert (Hne : text <> "").
  { intros ->. rewrite str_lower_ascii in Hlow by reflexivity. simpl in Hlow.
    subst m. now apply (catalog_entries_not_empty "" Hcat). }
  assert (Hm : filter (fun model => str_lower model =? str_lower text) STATIC_MODELS = [m]).
  { pose proof (unique_key_is_found str_lower m STATIC_MODELS) as Hfound.
    rewrite (catalog_entry_is_lower m Hcat) in Hfound. rewrite Hlow.
    apply Hfound; [|assumption].
    rewrite catalog_is_lower_case. apply catalog_has_no_duplicates. }
  destruct (sigil_then_text text) as (Hat & _ & Hrest).
  destruct (Hrest Hne) as (_ & Hnonempty).
  rewrite (chat_command _ _ _ _ Hsp) in Hrun; rewrite ?Hin; try assumption.
  rewrite Hin, (command_path_select _ _ _ _ m _ Hne Hm) in Hrun.
  split_run Hrun. apply lift_ok in Hrun1 as (Hset & _).
  apply ret_ok in Hrun as (-> & _). simpl.
  split; [exact (getitem_after_setitem _ _ _ _ Hset) | reflexivity].
Qed.

(** X11. A [STREAM_PORT] that [int()] rejects makes every command raise that
    error before anything is written, even when no host is configured: the
    port is converted before the host is looked at. *)
Theorem bad_port_breaks_every_command (args : pydict) (sp : pyval)
    (host : string) (e : exn) (w : world) :
  default_fields (load_state args) = Ok sp ->
  startswith (user_input args) "@" = true ->
  py_strip (dict_get_default args "STREAM_HOST" (PStr "")) = Ok host ->
  py_int (dict_get_default args "STREAM_PORT" (PStr "0")) = Raise e ->
  chat E args w = (Raise e, w).
Proof.
  intros Hsp Hat Hh Hp.
  assert (Hin : user_input args <> "").
  { intros Heq. rewrite Heq in Hat. discriminate. }
  rewrite (chat_command _ _ _ _ Hsp Hin Hat).
  unfold command_path. change STREAM_ENABLED with true. cbv iota.
  unfold bind at 1. unfold _open_socket. rewrite !bind_lift, Hh, Hp. reflexivity.
Qed.

(** ** Turns *)

(** X12. A chat turn that returns has one of two ends, with the streaming
    flag set. Either the [try] block failed: the output is the error text and
    the state is the state after defaulting. Or it ran to its end: the
    history is the one after defaulting followed by the user message and one
    assistant message whose content is the output, and every other field,
    the model among them, is as it was. *)
Theorem reply_is_persisted_or_nothing (args : pydict) (sp : pyval)
    (w w' : world) (r : result) :
  default_fields (load_state args) = Ok sp ->
  user_input args <> "" ->
  startswith (user_input args) "@" = false ->
  chat E args w = (Ok r, w') ->
  streaming r = true /\
  ((exists e, output r = PStr (failure_text e) /\ state r = sp)
   \/ (exists hist full,
         py_getitem sp "history" = Ok (PList hist) /\
         output r = PStr full /\
         py_getitem (state r) "history"
         = Ok (PList (hist ++ [user_message (user_input args);
                               assistant_message (PStr full)])) /\
         forall k, k <> "history" -> py_getitem (state r) k = py_getitem sp k)).
Proof.
  intros Hsp Hin Hat Hrun.
  apply (chat_path_returns _ _ _ _ _ _ Hsp Hin Hat) in Hrun
    as (messages & req & sock & w2 & t & s' & Hreq & Hg & ->).
  split; [reflexivity|].
  destruct Hreq as (_ & _ & _ & Hm & _).
  apply build_messages_list in Hm as (hist & Hh & ->).
  apply guarded_request_returns in Hg as [(w1 & Hb)|(e & w1 & _ & Hv)].
  - apply request_body_returns in Hb
      as (resp & full & messages' & _ & _ & _ & -> & Happ & Hset).
    simpl in Happ. inversion Happ; subst messages'.
    right. exists hist, full. simpl. split; [assumption|]. split; [reflexivity|].
    split.
    + rewrite (getitem_after_setitem _ _ _ _ Hset). now rewrite <- app_assoc.
    + intros k Hk. apply (getitem_after_setitem_other _ _ _ _ _ Hset). congruence.
  - inversion Hv; subst. left. exists e. auto.
Qed.

(** X13. Whatever is raised inside the [try] block (a network error in the
    middle of the body, a frame on which the lookups fail, a failed write)
    becomes the output of the turn when the error text can be pushed: [chat]
    returns that text and the state after defaulting, so what was already
    accumulated or pushed of the reply is not kept. *)
Theorem any_failure_in_the_try_becomes_the_output (args : pydict) (w : world)
    (sp messages : pyval) (req : request) (sock : option socket)
    (w2 w3 w4 : world) (e : exn) :
  request_issued E args w sp messages req sock w2 ->
  request_body E sock req messages sp w2 = (Raise e, w3) ->
  _stream_text E sock (failure_text e) w3 = (Ok tt, w4) ->
  exists w', chat E args w = (Ok (Result (PStr (failure_text e)) true sp), w').
Proof.
  intros Hreq Hbody Hpush. rewrite (chat_at_request _ _ _ _ _ _ _ _ Hreq).
  destruct (guarded_request_failed _ _ _ _ _ _ _ _ _ Hbody Hpush) as (w' & Hg).
  exists w'. unfold bind. rewrite Hg. reflexivity.
Qed.

Lemma chat_congruence (args1 args2 : pydict) (w : world) :
  load_state args1 = load_state args2 ->
  user_input args1 = user_input args2 ->
  (forall k, In k ["OLLAMA_API_SECRET"; "STREAM_HOST"; "STREAM_PORT"] ->
             dict_get args1 k = dict_get args2 k) ->
  chat E args1 w = chat E args2 w.
Proof.
  intros Hstate Hinput Hkeys.
  assert (Hopen : _open_socket E args1 = _open_socket E args2).
  { unfold _open_socket, dict_get_default.
    rewrite (Hkeys "STREAM_HOST"), (Hkeys "STREAM_PORT") by (simpl; tauto).
    reflexivity. }
  assert (Hreq : forall sp m, build_request E args1 sp m = build_request E args2 sp m).
  { intros sp m. unfold build_request, _get_headers, dict_get_default.
    rewrite (Hkeys "OLLAMA_API_SECRET") by (simpl; tauto). reflexivity. }
  unfold chat, command_path, chat_path.
  rewrite Hstate, Hinput, Hopen.
  destruct (default_fields (load_state args2)) as [sp|e]; [|reflexivity].
  rewrite !bind_lift.
  destruct (user_input args2 =? ""); [reflexivity|].
  destruct (startswith (user_input args2) "@"); [reflexivity|].
  rewrite !bind_lift.
  destruct (build_messages sp (user_input args2)) as [m|e]; [|reflexivity].
  rewrite Hreq. reflexivity.
Qed.

(** X14. [chat] reads [args] through five keys only, and the input only
    through its trimmed text: two bags with the same state, secret, stream
    host and stream port, whose inputs have the same trimmed text, run the
    same turn, whatever else they hold (an [OLLAMA_API_HOST] for one) and
    whatever blanks surround the input. *)
Theorem chat_reads_five_keys (args1 args2 : pydict) (w : world) :
  (forall k, In k ["state"; "OLLAMA_API_SECRET"; "STREAM_HOST"; "STREAM_PORT"] ->
             dict_get args1 k = dict_get args2 k) ->
  user_input args1 = user_input args2 ->
  chat E args1 w = chat E args2 w.
Proof.
  intros Hkeys Hinput. apply chat_congruence; [|assumption|].
  - unfold load_state, dict_get_default.
    rewrite (Hkeys "state") by (simpl; tauto). reflexivity.
  - intros k Hk. apply Hkeys. simpl in *. tauto.
Qed.

(** X15. However the state came (the JSON text of an object, a text that is
    not JSON, a value that is no dict, nothing at all), when lines 89-98 make
    a dict of it the turn is the one that dict, given as it is, would run. *)
Theorem state_may_come_decoded (args : pydict) (d : pydict) (w : world) :
  load_state args = PDict d ->
  chat E args w = chat E (dict_set args "state" (PDict d)) w.
Proof.
  intros Hd. apply chat_congruence.
  - rewrite Hd. unfold load_state, dict_get_default.
    now rewrite dict_get_set_same.
  - unfold user_input, dict_get_default.
    now rewrite dict_get_set_other by discriminate.
  - intros k Hk. symmetry. apply dict_get_set_other.
    simpl in Hk. intuition (subst; discriminate).
Qed.

(** X16. A field of the state other than the model and the history comes
    back from every returning turn as the caller gave it, and a field the
    caller did not give is not added. *)
Theorem other_state_fields_pass_through (args : pydict) (w w' : world)
    (r : result) (k : string) :
  chat E args w = (Ok r, w') ->
  k <> "model" -> k <> "history" ->
  py_getitem (state r) k = py_getitem (load_state args) k.
Proof.
  intros Hrun Hm Hh.
  destruct (default_fields (load_state args)) as [sp|e] eqn:Hsp.
  2:{ rewrite (chat_raises_on_bad_state _ _ _ _ Hsp) in Hrun. discriminate. }
  rewrite <- (default_fields_elsewhere _ _ Hsp k Hm Hh).
  destruct (chat_state_cases _ _ _ _ _ _ Hsp Hrun)
    as [Hst|[(m & _ & Hset)|(hist & full & _ & _ & Hset)]].
  - now rewrite Hst.
  - apply (getitem_after_setitem_other _ _ _ _ _ Hset). congruence.
  - apply (getitem_after_setitem_other _ _ _ _ _ Hset). congruence.
Qed.

(** ** What a turn does on the side channel *)

Lemma only_writes_pure {A} (sock : option socket) (o : outcome A) :
  only_writes sock (lift o).
Proof.
  intros w o' w' H. inversion H; subst. exists []. now rewrite app_nil_r.
Qed.

Lemma only_writes_ret {A} (sock : option socket) (a : A) :
  only_writes sock (ret a).
Proof. apply (only_writes_pure sock (Ok a)). Qed.

Lemma only_writes_raise {A} (sock : option socket) (e : exn) :
  only_writes sock (@raise A e).
Proof. apply (only_writes_pure sock (Raise e)). Qed.

Lemma only_writes_bind {A B} (sock : option socket) (m : M A) (k : A -> M B) :
  only_writes sock m -> (forall a, only_writes sock (k a)) ->
  only_writes sock (bind m k).
Proof.
  intros Hm Hk w o w' Hrun. unfold bind in Hrun.
  destruct (m w) as [[a|e] w1] eqn:Hmw;
    destruct (Hm _ _ _ Hmw) as (sent1 & -> & Hs1 & Hn1).
  - destruct (Hk a _ _ _ Hrun) as (sent2 & -> & Hs2 & Hn2).
    exists (sent1 ++ sent2)%list. split; [now rewrite app_assoc|]. split.
    + now rewrite forallb_app, Hs1, Hs2.
    + intros Hnone. now rewrite Hn1, Hn2.
  - inversion Hrun; subst. eauto.
Qed.

Lemma only_writes_try_except {A} (sock : option socket) (body : M A)
    (handler : exn -> M A) :
  only_writes sock body -> (forall e, only_writes sock (handler e)) ->
  only_writes sock (try_except body handler).
Proof.
  intros Hb Hh w o w' Hrun. unfold try_except in Hrun.
  destruct (body w) as [[a|e] w1] eqn:Hbw;
    destruct (Hb _ _ _ Hbw) as (sent1 & -> & Hs1 & Hn1).
  - inversion Hrun; subst. eauto.
  - destruct (Hh e _ _ _ Hrun) as (sent2 & -> & Hs2 & Hn2).
    exists (sent1 ++ sent2)%list. split; [now rewrite app_assoc|]. split.
    + now rewrite forallb_app, Hs1, Hs2.
    + intros Hnone. now rewrite Hn1, Hn2.
Qed.

Lemma only_writes_send (sock : option socket) (payload : pyval) :
  only_writes sock (_send E sock payload).
Proof.
  intros w o w' Hrun. unfold _send, sock_sendall in Hrun. destruct sock.
  - destruct (send_error E w payload); inversion Hrun; subst.
    + exists []. rewrite app_nil_r. repeat split.
    + exists [Sent payload]. repeat split. discriminate.
  - inversion Hrun; subst. exists []. now rewrite app_nil_r.
Qed.

Lemma only_writes_for_each {A} (sock : option socket) (body : A -> M unit)
    (l : list A) :
  (forall a, only_writes sock (body a)) -> only_writes sock (for_each l body).
Proof.
  intros Hb. induction l as [|a r IH]; cbn [for_each].
  - apply only_writes_ret.
  - apply only_writes_bind; [apply Hb | intros _; exact IH].
Qed.

Lemma only_writes_stream_text (sock : option socket) (text : string) :
  only_writes sock (_stream_text E sock text).
Proof.
  unfold _stream_text. destruct sock as [s|]; [|apply only_writes_ret].
  apply only_writes_for_each. intros i. apply only_writes_send.
Qed.

Lemma only_writes_relay (sock : option socket) (lines : list string)
    (at_end : option exn) :
  forall ft, only_writes sock (relay E sock lines at_end ft).
Proof.
  induction lines as [|line rest IH]; intros ft.
  - rewrite relay_nil. destruct at_end;
      [apply only_writes_raise | apply only_writes_ret].
  - intros w o w' Hrun. rewrite relay_step in Hrun.
    destruct (decode_line line) as [| |content|e].
    + exact (IH ft _ _ _ Hrun).
    + exact (only_writes_ret sock ft _ _ _ Hrun).
    + revert Hrun. apply only_writes_bind; [apply only_writes_pure|].
      intros ft'. apply only_writes_bind; [apply only_writes_send|].
      intros _. apply IH.
    + exact (only_writes_raise (A:=string) sock e _ _ _ Hrun).
Qed.

Lemma only_writes_request_body (sock : option socket) (req : request)
    (messages sp : pyval) :
  only_writes sock (request_body E sock req messages sp).
Proof.
  unfold request_body. change STREAM_ENABLED with true. cbv iota.
  destruct (http_post E req) as [e|r]; [apply only_writes_raise|].
  destruct (status_error r); [apply only_writes_raise|].
  apply only_writes_bind; [apply only_writes_relay|]. intros full.
  apply only_writes_bind; [apply only_writes_pure|]. intros m.
  apply only_writes_bind; [apply only_writes_pure|]. intros s.
  apply only_writes_ret.
Qed.

Lemma only_writes_request_failed (sock : option socket) (sp : pyval) (e : exn) :
  only_writes sock (request_failed E sock sp e).
Proof.
  intros w o w' Hrun. rewrite request_failed_run in Hrun. revert Hrun.
  apply only_writes_bind; [apply only_writes_stream_text|].
  intros _. apply only_writes_ret.
Qed.

Lemma uses_channel_close (sock : option socket) :
  uses_channel sock (_close_socket E sock).
Proof.
  intros w o w' Hrun. rewrite close_socket_run in Hrun. inversion Hrun; subst.
  destruct sock; simpl.
  - exists [Closed]. split; [reflexivity|]. exists [], [Closed]. auto.
  - exists []. now rewrite app_nil_r.
Qed.

Lemma uses_channel_after_writes {A B} (sock : option socket) (m : M A)
    (k : A -> M B) :
  only_writes sock m -> (forall a, uses_channel sock (k a)) ->
  uses_channel sock (bind m k).
Proof.
  intros Hm Hk w o w' Hrun. unfold bind in Hrun.
  destruct (m w) as [[a|e] w1] eqn:Hmw;
    destruct (Hm _ _ _ Hmw) as (sent1 & -> & Hs1 & Hn1).
  - destruct (Hk a _ _ _ Hrun) as (evs & -> & Huse).
    exists (sent1 ++ evs)%list. split; [now rewrite app_assoc|].
    destruct sock; simpl in *.
    + destruct Huse as (sent2 & closed & -> & Hs2 & Hc).
      exists (sent1 ++ sent2)%list, closed. split; [now rewrite app_assoc|].
      split; [now rewrite forallb_app, Hs1, Hs2 | assumption].
    + now rewrite Hn1, Huse.
  - inversion Hrun; subst. exists sent1. split; [reflexivity|].
    destruct sock; simpl.
    + exists sent1, []. rewrite app_nil_r. auto.
    + now apply Hn1.
Qed.

Lemma uses_channel_then_ret {A B} (sock : option socket) (m : M A) (f : A -> B) :
  uses_channel sock m -> uses_channel sock (a <- m ;; ret (f a)).
Proof.
  intros Hm w o w' Hrun. unfold bind in Hrun.
  destruct (m w) as [[a|e] w1] eqn:Hmw;
    destruct (Hm _ _ _ Hmw) as (evs & -> & Huse); inversion Hrun; subst; eauto.
Qed.

Lemma uses_channel_push (sock : option socket) (sp : pyval) (text : string) :
  uses_channel sock (push_and_close E sock sp text).
Proof.
  unfold push_and_close. change STREAM_ENABLED with true. cbv iota.
  apply uses_channel_after_writes; [apply only_writes_send|]. intros _.
  apply uses_channel_after_writes; [apply only_writes_stream_text|]. intros _.
  apply uses_channel_close.
Qed.

Lemma uses_channel_guarded_request (sock : option socket) (req : request)
    (messages sp : pyval) :
  uses_channel sock (guarded_request E sock req messages sp).
Proof.
  intros w o w' Hrun. unfold guarded_request, try_finally in Hrun.
  change STREAM_ENABLED with true in Hrun. cbv iota in Hrun.
  destruct (try_except (request_body E sock req messages sp)
              (request_failed E sock sp) w) as [o1 w1] eqn:Hbody.
  assert (Hw : only_writes sock
                 (try_except (request_body E sock req messages sp)
                    (request_failed E sock sp))).
  { apply only_writes_try_except;
      [apply only_writes_request_body | apply only_writes_request_failed]. }
  destruct (Hw _ _ _ Hbody) as (sent & -> & Hs & Hn).
  rewrite close_socket_run in Hrun. inversion Hrun; subst.
  destruct sock; simpl.
  - exists (sent ++ [Closed])%list. split; [now rewrite app_assoc|].
    exists sent, [Closed]. auto.
  - exists []. rewrite (Hn eq_refl). now rewrite !app_nil_r.
Qed.

Lemma uses_channel_raise {A} (sock : option socket) (e : exn) :
  uses_channel sock (@raise A e).
Proof.
  intros w o w' H. inversion H; subst. exists []. rewrite app_nil_r.
  split; [reflexivity|]. destruct sock; simpl; [|reflexivity].
  exists [], []. auto.
Qed.

Lemma open_socket_cases (args : pydict) (w : world) :
  (exists e, _open_socket E args w = (Raise e, w)) \/
  _open_socket E args w = (Ok None, w) \/
  (exists host port,
     _open_socket E args w
     = (Ok (Some (Socket host port)), (w ++ [Connected host port])%list)).
Proof.
  unfold _open_socket. rewrite bind_lift.
  destruct (py_strip _) as [host|e]; [|eauto].
  rewrite bind_lift. destruct (py_int _) as [port|e]; [|eauto].
  destruct ((host =? "") || (port =? 0)%Z); [now right; left|].
  unfold sock_connect. destruct (connect_error E host port); eauto.
Qed.

Lemma after_open_socket {A} (args : pydict) (k : option socket -> M A) (w : world) :
  (forall sock, uses_channel sock (k sock)) ->
  exists evs,
    snd (bind (_open_socket E args) k w) = (w ++ evs)%list /\
    (evs = [] \/
     exists host port sent closed,
       evs = (Connected host port :: sent ++ closed)%list /\
       forallb is_sent sent = true /\
       (closed = [Closed] \/
        (closed = [] /\ exists e, fst (bind (_open_socket E args) k w) = Raise e))).
Proof.
  intros Hk. unfold bind.
  destruct (open_socket_cases args w)
    as [(e & ->)|[-> |(host & port & ->)]].
  - exists []. rewrite app_nil_r. auto.
  - destruct (k None w) as [o w'] eqn:Hrun.
    destruct (Hk None _ _ _ Hrun) as (evs & -> & Huse). simpl in Huse. subst evs.
    exists []. auto.
  - destruct (k (Some (Socket host port)) (w ++ [Connected host port])%list)
      as [o w'] eqn:Hrun.
    destruct (Hk _ _ _ _ Hrun) as (evs & -> & sent & closed & -> & Hs & Hc).
    exists (Connected host port :: sent ++ closed)%list. simpl. split.
    + now rewrite <- app_assoc.
    + right. exists host, port, sent, closed. split; [reflexivity|].
      split; [assumption|].
      destruct Hc as [Hc|(Hret & Hc)]; [now left|]. right. split; [assumption|].
      destruct o; [discriminate | eauto].
Qed.

(** X17. What any turn does on the side channel, whether it returns or
    raises: nothing at all, or one connection, then writes only, then the
    close. The close is missing only in turns that raise, so a turn that
    returns leaves no socket open; nothing is written before the connection
    or after the close; no turn connects twice. *)
Theorem one_connection_per_turn (args : pydict) (w : world) :
  exists evs,
    snd (chat E args w) = (w ++ evs)%list /\
    (evs = [] \/
     exists host port sent closed,
       evs = (Connected host port :: sent ++ closed)%list /\
       forallb is_sent sent = true /\
       (closed = [Closed] \/
        (closed = [] /\ exists e, fst (chat E args w) = Raise e))).
Proof.
  assert (Hnothing : forall (o : outcome result),
            exists evs, snd (o, w) = (w ++ evs)%list /\
              (evs = [] \/
               exists host port sent closed,
                 evs = (Connected host port :: sent ++ closed)%list /\
                 forallb is_sent sent = true /\
                 (closed = [Closed] \/
                  (closed = [] /\ exists e, fst (o, w) = Raise e)))).
  { intros o. exists []. rewrite app_nil_r. auto. }
  unfold chat. rewrite bind_lift.
  destruct (default_fields (load_state args)) as [sp|e]; [|apply Hnothing].
  destruct (user_input args =? ""); [apply Hnothing|].
  destruct (startswith (user_input args) "@").
  - unfold command_path. change STREAM_ENABLED with true. cbv iota.
    apply after_open_socket. intros sock.
    destruct (user_input args =? "@").
    + apply uses_channel_after_writes; [apply only_writes_pure|]. intros model.
      apply (uses_channel_then_ret sock _ (fun _ => _)). apply uses_channel_push.
    + destruct (List.length _ =? 0)%nat.
      * apply uses_channel_after_writes; [apply only_writes_pure|]. intros model.
        apply (uses_channel_then_ret sock _ (fun _ => _)). apply uses_channel_push.
      * destruct (1 <? List.length _)%nat.
        -- apply (uses_channel_then_ret sock _ (fun _ => _)). apply uses_channel_push.
        -- destruct (filter _ STATIC_MODELS).
           ++ apply uses_channel_raise.
           ++ apply uses_channel_after_writes; [apply only_writes_pure|]. intros sp'.
              apply (uses_channel_then_ret sock _ (fun _ => _)).
              apply uses_channel_push.
  - unfold chat_path. rewrite bind_lift.
    destruct (build_messages sp (user_input args)) as [messages|e]; [|apply Hnothing].
    rewrite bind_lift.
    destruct (build_request E args sp messages) as [req|e]; [|apply Hnothing].
    change STREAM_ENABLED with true. cbv iota.
    apply after_open_socket. intros sock.
    apply uses_channel_after_writes; [apply only_writes_send|]. intros _.
    apply (uses_channel_then_ret sock _ (fun r => Result (fst r) true (snd r))).
    apply uses_channel_guarded_request.
Qed.

Lemma open_socket_unconfigured (args : pydict) (host : string) (port : Z)
    (w : world) :
  py_strip (dict_get_default args "STREAM_HOST" (PStr "")) = Ok host ->
  py_int (dict_get_default args "STREAM_PORT" (PStr "0")) = Ok port ->
  host = "" \/ port = 0%Z ->
  _open_socket E args w = (Ok None, w).
Proof.
  intros Hh Hp Hoff. unfold _open_socket. rewrite !bind_lift, Hh, Hp.
  destruct Hoff as [-> | ->]; [reflexivity|]. destruct (host =? ""); reflexivity.
Qed.

Lemma quiet_without_socket {A} (m : M A) (w : world) :
  uses_channel None m -> snd (m w) = w.
Proof.
  intros Hm. destruct (m w) as [o w'] eqn:Hrun.
  destruct (Hm _ _ _ Hrun) as (evs & -> & Huse). simpl in Huse. subst evs.
  simpl. now rewrite app_nil_r.
Qed.

(** X18. Without a side channel (no host, a blank host, or port zero, the
    port being one [int()] accepts) a turn does nothing on the network side
    of the side channel: whether it returns or raises, the log is left as it
    was. *)
Theorem no_side_channel_no_events (args : pydict) (host : string) (port : Z)
    (w : world) :
  py_strip (dict_get_default args "STREAM_HOST" (PStr "")) = Ok host ->
  py_int (dict_get_default args "STREAM_PORT" (PStr "0")) = Ok port ->
  host = "" \/ port = 0%Z ->
  snd (chat E args w) = w.
Proof.
  intros Hh Hp Hoff.
  pose proof (fun w0 => open_socket_unconfigured args host port w0 Hh Hp Hoff)
    as Hopen.
  unfold chat. rewrite bind_lift.
  destruct (default_fields (load_state args)) as [sp|e]; [|reflexivity].
  destruct (user_input args =? ""); [reflexivity|].
  destruct (startswith (user_input args) "@").
  - unfold command_path. change STREAM_ENABLED with true. cbv iota.
    rewrite (bind_run _ _ _ _ _ (Hopen w)). apply quiet_without_socket.
    destruct (user_input args =? "@").
    + apply uses_channel_after_writes; [apply only_writes_pure|]. intros model.
      apply (uses_channel_then_ret None _ (fun _ => _)). apply uses_channel_push.
    + destruct (List.length _ =? 0)%nat.
      * apply uses_channel_after_writes; [apply only_writes_pure|]. intros model.
        apply (uses_channel_then_ret None _ (fun _ => _)). apply uses_channel_push.
      * destruct (1 <? List.length _)%nat.
        -- apply (uses_channel_then_ret None _ (fun _ => _)). apply uses_channel_push.
        -- destruct (filter _ STATIC_MODELS).
           ++ apply uses_channel_raise.
           ++ apply uses_channel_after_writes; [apply only_writes_pure|]. intros sp'.
              apply (uses_channel_then_ret None _ (fun _ => _)).
              apply uses_channel_push.
  - unfold chat_path. rewrite bind_lift.
    destruct (build_messages sp (user_input args)) as [messages|e]; [|reflexivity].
    rewrite bind_lift.
    destruct (build_request E args sp messages) as [req|e]; [|reflexivity].
    change STREAM_ENABLED with true. cbv iota.
    rewrite (bind_run _ _ _ _ _ (Hopen w)). apply quiet_without_socket.
    apply uses_channel_after_writes; [apply only_writes_send|]. intros _.
    apply (uses_channel_then_ret None _ (fun r => Result (fst r) true (snd r))).
    apply uses_channel_guarded_request.
Qed.

End More.

(** * The added properties at work *)

Lemma calm_sends_never_fail (up : upstream) : sends_never_fail (calm_env up).
Proof. intros w payload. reflexivity. Qed.

Lemma base_url_witness :
  exists url n,
    _get_base_url (calm_env hello_stream)
      [("OLLAMA_API_HOST", PStr "http://host:11434//")] = Ok url /\
    "http://host:11434//" = url ++ repeat_char "/" n /\
    last_char url <> Some "/"%char.
Proof.
  apply (base_url_loses_trailing_slashes (calm_env hello_stream)
           [("OLLAMA_API_HOST", PStr "http://host:11434//")] "http://host:11434//").
  left. run.
Defined.

Lemma base_url_number_witness :
  (py_truthy (PInt 5) = true ->
   exists e, exn_kind e = AttributeError /\
     _get_base_url (calm_env hello_stream) [("OLLAMA_API_HOST", PInt 5)] = Raise e) /\
  (py_truthy (PInt 5) = false ->
   _get_base_url (calm_env hello_stream) [("OLLAMA_API_HOST", PInt 5)] = Ok "").
Proof.
  apply (base_url_of_a_non_string (calm_env hello_stream)
           [("OLLAMA_API_HOST", PInt 5)] (PInt 5)).
  - run.
  - intros s. discriminate.
Defined.

Lemma stream_text_witness :
  (_stream_text (calm_env hello_stream) (Some localhost) "naïve café!" []
   = (Ok tt, ([] ++ slice_events "naïve café!")%list) /\
   join_all (pushed_chunks (slice_events "naïve café!")) = "naïve café!" /\
   Forall (fun chunk => str_len chunk <= 10)
     (pushed_chunks (slice_events "naïve café!")) /\
   List.length (slice_events "naïve café!") = (str_len "naïve café!" + 9) / 10)
  /\ slice_events "naïve café!"
     = [Sent (output_msg (PStr "naïve café")); Sent (output_msg (PStr "!"))].
Proof.
  split; [|reflexivity].
  apply (stream_text_slices_rebuild_text (calm_env hello_stream) localhost
           "naïve café!" []).
  apply calm_sends_never_fail.
Defined.

Lemma ignored_line_witness :
  @relay sample_runtime (calm_env hello_stream) (Some localhost)
    (["data: " ++ delta_json "Hel"] ++ "data: {broken" :: ["data: " ++ delta_json "lo"])
    None "" []
  = @relay sample_runtime (calm_env hello_stream) (Some localhost)
      (["data: " ++ delta_json "Hel"] ++ ["data: " ++ delta_json "lo"]) None "" [].
Proof.
  apply (@ignored_line_changes_nothing sample_runtime (calm_env hello_stream)
           (Some localhost) ["data: " ++ delta_json "Hel"]
           ["data: " ++ delta_json "lo"] "data: {broken" None "" []).
  run.
Defined.

Lemma after_done_witness :
  @relay sample_runtime (calm_env hello_stream) (Some localhost)
    (["data: " ++ delta_json "Hel"] ++ "data: [DONE]" :: ["data: " ++ delta_json "lo"])
    (Some connection_reset) "" []
  = @relay sample_runtime (calm_env hello_stream) (Some localhost)
      (["data: " ++ delta_json "Hel"] ++ ["data: [DONE]"]) None "" [].
Proof.
  apply (@nothing_is_read_after_done sample_runtime (calm_env hello_stream)
           (Some localhost) ["data: " ++ delta_json "Hel"]
           ["data: " ++ delta_json "lo"] "data: [DONE]"
           (Some connection_reset) "" []).
  run.
Defined.

Lemma null_content_witness :
  exists e, exn_kind e = TypeError /\
    @relay wider_runtime (calm_env hello_stream) (Some localhost)
      (("data: " ++ null_json) :: ["data: " ++ delta_json "lo"]) None "Hel" hi_log
    = (Raise e, hi_log).
Proof.
  apply (@content_that_is_no_text_stops_the_relay wider_runtime
           (calm_env hello_stream) (Some localhost) ("data: " ++ null_json)
           ["data: " ++ delta_json "lo"] PNone None "Hel" hi_log).
  - run.
  - intros s. discriminate.
Defined.

Lemma reply_log_witness :
  exists host port chunks,
    localhost = Socket host port /\
    @chat sample_runtime (calm_env hello_stream) (side_channel_args "hi") []
    = (Ok (Result (PStr (join_all chunks)) true (replied_state "Hello world")),
       ([] ++ [Connected host port; Sent (state_payload_msg fresh_state)]
           ++ map (fun c => Sent (output_msg (PStr c))) chunks
           ++ [Closed])%list).
Proof.
  apply (@side_channel_log_of_a_reply sample_runtime (calm_env hello_stream)
           (side_channel_args "hi") [] fresh_state hi_messages hi_request
           localhost hi_log (PStr "Hello world") (replied_state "Hello world")
           (hi_log ++ [Sent (output_msg (PStr "Hel")); Sent (output_msg (PStr "lo"));
                       Sent (output_msg (PStr " world"))])%list).
  - apply hi_request_issued.
  - run.
Defined.

Lemma list_command_witness :
  streaming (Result (PStr (@listing_text sample_runtime (PStr DEFAULT_MODEL)))
               true fresh_state) = true /\
  ((str_from 1 (@user_input sample_runtime [("input", PStr " @ ")]) = "" /\
    fresh_state = fresh_state /\
    exists model, py_getitem fresh_state "model" = Ok model /\
      PStr (@listing_text sample_runtime (PStr DEFAULT_MODEL))
      = PStr (@listing_text sample_runtime model))
   \/ (str_from 1 (@user_input sample_runtime [("input", PStr " @ ")]) <> "" /\
       @matching_models sample_runtime (str_from 1 (@user_input sample_runtime [("input", PStr " @ ")]))
       = [] /\ fresh_state = fresh_state /\
       exists model, py_getitem fresh_state "model" = Ok model /\
         PStr (@listing_text sample_runtime (PStr DEFAULT_MODEL))
         = PStr (@no_match_text sample_runtime
                   (str_from 1 (@user_input sample_runtime [("input", PStr " @ ")]))
                   model))
   \/ (str_from 1 (@user_input sample_runtime [("input", PStr " @ ")]) <> "" /\
       exists m,
         @matching_models sample_runtime (str_from 1 (@user_input sample_runtime [("input", PStr " @ ")]))
         = [m] /\
         py_setitem fresh_state "model" (PStr m) = Ok fresh_state /\
         PStr (@listing_text sample_runtime (PStr DEFAULT_MODEL))
         = PStr ("Model updated to: " ++ m))).
Proof.
  apply (@command_has_three_outcomes sample_runtime (calm_env hello_stream)
           [("input", PStr " @ ")] fresh_state [] []
           (Result (PStr (@listing_text sample_runtime (PStr DEFAULT_MODEL)))
              true fresh_state)); run.
Defined.

Lemma select_by_name_witness :
  py_getitem (PDict [("model", PStr "openai/gpt-5"); ("history", PList [])]) "model"
  = Ok (PStr "openai/gpt-5") /\
  PStr "Model updated to: openai/gpt-5" = PStr ("Model updated to: " ++ "openai/gpt-5").
Proof.
  apply (@every_catalog_entry_can_be_selected sample_runtime (calm_env hello_stream)
           [("input", PStr "@OpenAI/GPT-5")] fresh_state "OpenAI/GPT-5"
           "openai/gpt-5" [] []
           (Result (PStr "Model updated to: openai/gpt-5") true
              (PDict [("model", PStr "openai/gpt-5"); ("history", PList [])]))).
  - run.
  - run.
  - simpl. tauto.
  - run.
  - run.
Defined.

Lemma bad_port_witness :
  @chat sample_runtime (calm_env hello_stream)
    [("input", PStr "@"); ("STREAM_PORT", PStr "http")] []
  = (Raise (Exn ValueError "invalid literal for int() with base 10: 'http'"), []).
Proof.
  apply (@bad_port_breaks_every_command sample_runtime (calm_env hello_stream)
           [("input", PStr "@"); ("STREAM_PORT", PStr "http")] fresh_state "" 
           (Exn ValueError "invalid literal for int() with base 10: 'http'") []);
    run.
Defined.

Lemma chat_turn_witness :
  streaming (Result (PStr "Hello world") true (replied_state "Hello world")) = true /\
  ((exists e, PStr "Hello world" = PStr (failure_text e) /\
              replied_state "Hello world" = fresh_state)
   \/ (exists hist full,
         py_getitem fresh_state "history" = Ok (PList hist) /\
         PStr "Hello world" = PStr full /\
         py_getitem (replied_state "Hello world") "history"
         = Ok (PList (hist ++ [user_message (@user_input sample_runtime
                                               [("input", PStr "hi")]);
                               assistant_message (PStr full)])) /\
         forall k, k <> "history" ->
           py_getitem (replied_state "Hello world") k = py_getitem fresh_state k)).
Proof.
  apply (@reply_is_persisted_or_nothing sample_runtime (calm_env hello_stream)
           [("input", PStr "hi")] fresh_state [] []
           (Result (PStr "Hello world") true (replied_state "Hello world"))).
  - run.
  - vm_compute. discriminate.
  - run.
  - run.
Defined.

Lemma broken_reply_witness :
  exists w',
    @chat sample_runtime (calm_env broken_stream) (side_channel_args "hi") []
    = (Ok (Result (PStr "API request failed: Connection broken") true fresh_state),
       w').
Proof.
  refine (@any_failure_in_the_try_becomes_the_output sample_runtime
            (calm_env broken_stream) (side_channel_args "hi") []
            fresh_state hi_messages hi_request (Some localhost) hi_log
            (hi_log ++ [Sent (output_msg (PStr "Hel"))])%list _
            (Exn RequestException "Connection broken") _ _ _).
  - apply hi_request_issued.
  - run.
  - run.
Defined.

Lemma five_keys_witness :
  @chat sample_runtime (calm_env hello_stream)
    [("input", PStr "  hi "); ("OLLAMA_API_HOST", PStr "http://elsewhere")] []
  = @chat sample_runtime (calm_env hello_stream) [("input", PStr "hi")] [].
Proof.
  apply (@chat_reads_five_keys sample_runtime (calm_env hello_stream)
           [("input", PStr "  hi "); ("OLLAMA_API_HOST", PStr "http://elsewhere")]
           [("input", PStr "hi")] []).
  - intros k Hk. simpl in Hk. destruct Hk as [<-|[<-|[<-|[<-|[]]]]]; reflexivity.
  - run.
Defined.

Lemma decoded_state_witness :
  @chat sample_runtime (calm_env hello_stream)
    [("input", PStr "@"); ("state", PStr "{}")] []
  = @chat sample_runtime (calm_env hello_stream)
      (dict_set [("input", PStr "@"); ("state", PStr "{}")] "state" (PDict [])) [].
Proof.
  apply (@state_may_come_decoded sample_runtime (calm_env hello_stream)
           [("input", PStr "@"); ("state", PStr "{}")] [] []).
  run.
Defined.

Lemma other_field_witness :
  py_getitem (PDict [("user", PStr "ann"); ("model", PStr "openai/gpt-5");
                     ("history", PList [])]) "user"
  = py_getitem (@load_state sample_runtime
                  [("input", PStr "@openai/gpt-5");
                   ("state", PDict [("user", PStr "ann")])]) "user".
Proof.
  apply (@other_state_fields_pass_through sample_runtime (calm_env hello_stream)
           [("input", PStr "@openai/gpt-5"); ("state", PDict [("user", PStr "ann")])]
           [] []
           (Result (PStr "Model updated to: openai/gpt-5") true
              (PDict [("user", PStr "ann"); ("model", PStr "openai/gpt-5");
                      ("history", PList [])])) "user").
  - run.
  - discriminate.
  - discriminate.
Defined.

Lemma no_side_channel_witness :
  snd (@chat sample_runtime (refusing_env hello_stream) [("input", PStr "hi")] [Closed])
  = [Closed].
Proof.
  apply (@no_side_channel_no_events sample_runtime (refusing_env hello_stream)
           [("input", PStr "hi")] "" 0%Z [Closed]).
  - run.
  - run.
  - left. reflexivity.
Defined.

(** ** The text functions past ASCII *)

(** The sample runtime on text that is not ASCII: a no-break space is
    trimmed, the Kelvin sign folds to k, a port in full-width digits is read,
    and a port after the separator U+001C is rejected, as [int] rejects it
    while [strip] would remove it. *)
Example sample_runtime_past_ascii :
  @user_input sample_runtime [("input", PStr (nbsp ++ "hi" ++ nbsp))] = "hi"
  /\ @matching_models sample_runtime ("moonshotai/" ++ kelvin_sign ++ "imi-k2")
     = ["moonshotai/kimi-k2"]
  /\ @_open_socket sample_runtime (calm_env hello_stream)
       [("STREAM_HOST", PStr "localhost");
        ("STREAM_PORT",
         PStr (utf8 [239; 188; 153; 239; 188; 144; 239; 188; 144; 239; 188; 144]))]
       []
     = (Ok (Some localhost), [Connected "localhost" 9000])
  /\ (exists e,
        exn_kind e = ValueError /\
        @_open_socket sample_runtime (calm_env hello_stream)
          [("STREAM_HOST", PStr "localhost");
           ("STREAM_PORT", PStr (utf8 [28] ++ "9000"))] []
        = (Raise e, []))
  /\ @py_strip sample_runtime (PStr (utf8 [28] ++ "9000")) = Ok "9000".
Proof.
  split; [run|]. split; [run|]. split; [run|].
  split; [eexists; split; [|run]; reflexivity | run].
Qed.
